(** * goproxy: the adapter between the module-proxy front end and the go command

    A shallow embedding of [main.go]: the access filter ([ops.Filter] and the
    rule loader), the toolchain helper ([goJSON]), the operations [List],
    [Latest], [Info], [GoMod] and [Zip], and the request logger.

    Strings are Go strings (sequences of bytes), errors are their messages,
    a Go result pair [(T, error)] is a [result T].  The file system, the
    clock and the go command are an explicit world that the operations
    thread through; every call that leaves the process is recorded in a
    trace, so that "does not invoke the toolchain" and "writes no file" are
    statements about that trace. *)

From Stdlib Require Import ZArith Ascii String.
From stdpp Require Import base gmap strings list.

Open Scope Z_scope.

(** ** Go values *)

Definition error := string.

Inductive result (A : Type) : Type :=
| Ok (a : A)
| Err (e : error).
Arguments Ok {A} a.
Arguments Err {A} e.

Definition newline : ascii := "010"%char.
Definition nl : string := String newline "".

(** [len(s)] of a string or byte slice. *)
Definition len (s : string) : Z := Z.of_nat (String.length s).

Module strings.

(** [strings.Join(elems, sep)]. *)
Fixpoint Join (elems : list string) (sep : string) : string :=
  match elems with
  | [] => ""
  | [e] => e
  | e :: rest => e +:+ sep +:+ Join rest sep
  end.

(** [strings.Split(s, sep)] for a separator of one byte, the only use the
    program makes of it: the pieces between the separators, [[""]] for the
    empty string. *)
Fixpoint Split (s : string) (sep : ascii) : list string :=
  match s with
  | EmptyString => [""]
  | String c s' =>
      if Ascii.eqb c sep then "" :: Split s' sep
      else match Split s' sep with
           | piece :: pieces => String c piece :: pieces
           | [] => [String c ""]
           end
  end.

End strings.

(** ** Regular expressions

    [regexp.Regexp] belongs to the Go library; the filter only needs its
    two entry points, which form the interface below. *)

Class RegexpEngine (R : Type) := {
  Compile : string -> result R;
  MatchString : R -> string -> bool
}.

(** A model of the library for a fragment of its syntax: literals, [.],
    the anchors [^] and [$], grouping, alternation, the postfix operators
    [*], [+], [?] and backslash-escaped punctuation.  Anything else
    (classes, counted repetition, flags) is reported as a syntax error. *)
Module regexp.

Inductive Regexp : Type :=
| NoMatch
| EmptyMatch
| Literal (c : ascii)
| AnyCharNotNL
| BeginText
| EndText
| Concat (a b : Regexp)
| Alternate (a b : Regexp)
| Star (a : Regexp).

Definition Plus (a : Regexp) : Regexp := Concat a (Star a).
Definition Quest (a : Regexp) : Regexp := Alternate a EmptyMatch.

Definition is_one_of (c : ascii) (chars : string) : bool :=
  existsb (Ascii.eqb c) (list_ascii_of_string chars).

(** The postfix operators after an atom; a second operator in a row is
    the library's "invalid nested repetition operator". *)
Definition parseRepeat (a : Regexp) (s : string) : option (Regexp * string) :=
  let nested (rest : string) :=
    match rest with
    | String c _ => is_one_of c "*+?"
    | EmptyString => false
    end in
  match s with
  | String "*" rest => if nested rest then None else Some (Star a, rest)
  | String "+" rest => if nested rest then None else Some (Plus a, rest)
  | String "?" rest => if nested rest then None else Some (Quest a, rest)
  | _ => Some (a, s)
  end.

(** Recursive descent, [n] bounding the depth: [parseAlt] reads an
    alternation up to the end of the text or a closing parenthesis,
    [parseCat] one of its branches. *)
Fixpoint parseAlt (n : nat) (s : string) : option (Regexp * string) :=
  match n with
  | O => None
  | S n =>
      match parseCat n s with
      | Some (a, String "|" rest) =>
          match parseAlt n rest with
          | Some (b, rest') => Some (Alternate a b, rest')
          | None => None
          end
      | other => other
      end
  end
with parseCat (n : nat) (s : string) : option (Regexp * string) :=
  match n with
  | O => None
  | S n =>
      match s with
      | EmptyString => Some (EmptyMatch, s)
      | String c rest =>
          if is_one_of c "|)" then Some (EmptyMatch, s)
          else
            let atom : option (Regexp * string) :=
              if Ascii.eqb c "(" then
                match parseAlt n rest with
                | Some (a, String ")" rest') => Some (a, rest')
                | _ => None
                end
              else if Ascii.eqb c "." then Some (AnyCharNotNL, rest)
              else if Ascii.eqb c "^" then Some (BeginText, rest)
              else if Ascii.eqb c "$" then Some (EndText, rest)
              else if Ascii.eqb c "\" then
                match rest with
                | String c' rest' =>
                    if is_one_of c' "\.+*?()|[]{}^$-/" then Some (Literal c', rest')
                    else None
                | EmptyString => None
                end
              else if is_one_of c "*+?[{" then None
              else Some (Literal c, rest) in
            match atom with
            | Some (a, rest) =>
                match parseRepeat a rest with
                | Some (a', rest') =>
                    match parseCat n rest' with
                    | Some (b, rest'') => Some (Concat a' b, rest'')
                    | None => None
                    end
                | None => None
                end
            | None => None
            end
      end
  end.

Definition Compile (expr : string) : result Regexp :=
  match parseAlt (2 * String.length expr + 2) expr with
  | Some (re, EmptyString) => Ok re
  | _ => Err ("error parsing regexp: " +:+ expr)
  end.

(** Matching by derivatives.  [bot] and [eot] say whether the current
    position is the beginning, respectively the end, of the text. *)
Fixpoint nullable (bot eot : bool) (re : Regexp) : bool :=
  match re with
  | NoMatch => false
  | EmptyMatch => true
  | Literal _ => false
  | AnyCharNotNL => false
  | BeginText => bot
  | EndText => eot
  | Concat a b => nullable bot eot a && nullable bot eot b
  | Alternate a b => nullable bot eot a || nullable bot eot b
  | Star _ => true
  end.

Fixpoint deriv (bot : bool) (c : ascii) (re : Regexp) : Regexp :=
  match re with
  | NoMatch | EmptyMatch | BeginText | EndText => NoMatch
  | Literal c' => if Ascii.eqb c c' then EmptyMatch else NoMatch
  | AnyCharNotNL => if Ascii.eqb c newline then NoMatch else EmptyMatch
  | Concat a b =>
      if nullable bot false a
      then Alternate (Concat (deriv bot c a) b) (deriv bot c b)
      else Concat (deriv bot c a) b
  | Alternate a b => Alternate (deriv bot c a) (deriv bot c b)
  | Star a => Concat (deriv bot c a) (Star a)
  end.

(** Does a match start at the current position? *)
Fixpoint matchHere (bot : bool) (re : Regexp) (s : string) : bool :=
  match s with
  | EmptyString => nullable bot true re
  | String c s' => nullable bot false re || matchHere false (deriv bot c re) s'
  end.

(** Does a match start at the current position or a later one? *)
Fixpoint matchFrom (bot : bool) (re : Regexp) (s : string) : bool :=
  matchHere bot re s ||
  match s with
  | EmptyString => false
  | String _ s' => matchFrom false re s'
  end.

(** [re.MatchString(s)]: whether [s] contains any match of [re]. *)
Definition MatchString (re : Regexp) (s : string) : bool := matchFrom true re s.

End regexp.

#[export] Instance regexp_engine : RegexpEngine regexp.Regexp := {
  Compile := regexp.Compile;
  MatchString := regexp.MatchString
}.

(** ** The access filter *)

Section Filter.
Context {R : Type} `{RegexpEngine R}.

(** An ops is a proxy.ServerOps implementation. *)
Record ops : Type := {
  whiteList : list R;
  blackList : list R
}.

(** [for _, r := range rules { if r.MatchString(path) { return true } }
    return false], the loop of the two predicates below. *)
Fixpoint anyMatch (rules : list R) (path : string) : bool :=
  match rules with
  | [] => false
  | r :: rules' => if MatchString r path then true else anyMatch rules' path
  end.

Definition isWhitelisted (o : ops) (path : string) : bool :=
  anyMatch (whiteList o) path.

Definition isBlacklisted (o : ops) (path : string) : bool :=
  anyMatch (blackList o) path.

(** The two guarded tests of the source, each with its early return; both
    guards test the length of [whiteList], as the source does. *)
Definition Filter (o : ops) (path : string) : bool :=
  let allowed :=
    if 0 <? Z.of_nat (length (whiteList o)) then
      if negb (isWhitelisted o path) then false else true
    else true in
  if 0 <? Z.of_nat (length (whiteList o)) then
    if isBlacklisted o path then false else allowed
  else allowed.

(** The loop of [loadRules]: every line is anchored, compiled and
    appended; the first line that does not compile ends the loop. *)
Fixpoint compileRules (lines : list string) (rules : list R) : result (list R) :=
  match lines with
  | [] => Ok rules
  | w :: lines' =>
      match Compile ("^" +:+ w +:+ "$") with
      | Err e => Err e
      | Ok r => compileRules lines' (rules ++ [r])
      end
  end.

End Filter.
Arguments ops R : clear implicits.

(** ** The process and the world around it *)

(** A node of the file system: a regular file with its bytes, or a
    directory; [modTime] in nanoseconds, [mode] the permission bits. *)
Record FileInfo : Type := {
  isDir : bool;
  data : string;
  modTime : Z;
  mode : Z
}.

(** What [os.Open] hands out ([proxy.File] to the front end): the bytes of
    a regular file, as they are when it is opened, or a directory. *)
Inductive File : Type :=
| RegularFile (name : string) (contents : string)
| Directory (name : string).

(** What a finished child process leaves: [cmd.Run]'s error (a non-zero
    exit or a command that could not be started) and the two buffers. *)
Record Process : Type := {
  runErr : option error;
  stdout : string;
  stderr : string
}.

(** The calls that leave the process, in the order they are made. *)
Inductive Event : Type :=
| EvReadFile (name : string)
| EvStat (name : string)
| EvOpen (name : string)
| EvMkdirAll (path : string) (perm : Z)
| EvWriteFile (name : string) (contents : string) (perm : Z)
| EvRun (command : list string)
| EvLog (elapsed : Z) (code : Z) (url : string).

Record State : Type := {
  downloadRoot : string;
  fs : gmap string FileInfo;
  now : Z;
  trace : list Event
}.

Definition emit (e : Event) (w : State) : State :=
  {| downloadRoot := downloadRoot w; fs := fs w; now := now w;
     trace := trace w ++ [e] |}.

(** A computation returns a value or panics, and leaves a state. *)
Inductive outcome (A : Type) : Type :=
| Val (a : A)
| Panic (msg : string).
Arguments Val {A} a.
Arguments Panic {A} msg.

Definition M (A : Type) : Type := State -> outcome A * State.

#[export] Instance M_ret : MRet M := fun A a w => (Val a, w).
#[export] Instance M_bind : MBind M := fun A B k m w =>
  match m w with
  | (Val a, w') => k a w'
  | (Panic msg, w') => (Panic msg, w')
  end.

Definition panic {A : Type} (msg : string) : M A := fun w => (Panic msg, w).

(** What the program uses of the libraries and of the machine it runs on:
    [module.EscapePath], [filepath.Join] and [path.Dir], and the commands
    that [exec] can run, each of which may take time and change files. *)
Class Platform := {
  module_EscapePath : string -> result string;
  filepath_Join : string -> string -> string;
  path_Dir : string -> string;
  exec_Run : list string -> gmap string FileInfo -> Z -> Process * gmap string FileInfo * Z
}.

(** [json.Unmarshal(data, dst)] for a destination of type [A]: the
    destination as the decoder leaves it, and its error. *)
Class JSONDecoder (A : Type) := {
  Unmarshal : string -> A -> A * option error
}.

Module time.

Definition Nanosecond : Z := 1.
Definition Second : Z := 1000000000 * Nanosecond.
Definition Minute : Z := 60 * Second.

Definition minDuration : Z := - 2 ^ 63.
Definition maxDuration : Z := 2 ^ 63 - 1.

(** [t.Sub(u)]: a Duration is an int64 and the difference saturates. *)
Definition Sub (t u : Z) : Z := Z.max minDuration (Z.min maxDuration (t - u)).

Definition Now : M Z := fun w => (Val (now w), w).

Definition Since (t : Z) : M Z := fun w => (Val (Sub (now w) t), w).

End time.

Module os.

Definition Stat (name : string) : M (result FileInfo) := fun w =>
  (Val match fs w !! name with
       | Some info => Ok info
       | None => Err ("stat " +:+ name +:+ ": no such file or directory")
       end,
   emit (EvStat name) w).

Definition Open (name : string) : M (result File) := fun w =>
  (Val match fs w !! name with
       | Some info =>
           Ok (if isDir info then Directory name else RegularFile name (data info))
       | None => Err ("open " +:+ name +:+ ": no such file or directory")
       end,
   emit (EvOpen name) w).

(** [FileMode.Perm]: the nine permission bits. *)
Definition Perm (m : Z) : Z := Z.land m 511.

(** [os.MkdirAll(path, perm)].  Only the named directory is tracked, not
    its ancestors: [WriteFile] looks at the immediate parent alone. *)
Definition MkdirAll (path : string) (perm : Z) : M (option error) := fun w =>
  let w := emit (EvMkdirAll path perm) w in
  match fs w !! path with
  | Some info =>
      if isDir info then (Val None, w)
      else (Val (Some ("mkdir " +:+ path +:+ ": not a directory")), w)
  | None =>
      (Val None,
       {| downloadRoot := downloadRoot w;
          fs := <[path := {| isDir := true; data := ""; modTime := now w;
                             mode := Perm perm |}]> (fs w);
          now := now w; trace := trace w |})
  end.

End os.

Module ioutil.

Definition ReadFile (name : string) : M (result string) := fun w =>
  (Val match fs w !! name with
       | Some info =>
           if isDir info then Err ("read " +:+ name +:+ ": is a directory")
           else Ok (data info)
       | None => Err ("open " +:+ name +:+ ": no such file or directory")
       end,
   emit (EvReadFile name) w).

(** [ioutil.WriteFile(name, data, perm)]: the file is created with [perm]
    or truncated, keeping its mode; it needs its directory. *)
Definition WriteFile `{Platform} (name : string) (contents : string) (perm : Z)
  : M (option error) := fun w =>
  let w := emit (EvWriteFile name contents perm) w in
  let write (m : Z) :=
    (Val None,
     {| downloadRoot := downloadRoot w;
        fs := <[name := {| isDir := false; data := contents; modTime := now w;
                           mode := m |}]> (fs w);
        now := now w; trace := trace w |}) in
  match fs w !! path_Dir name with
  | Some dir =>
      if isDir dir then
        match fs w !! name with
        | Some info =>
            if isDir info
            then (Val (Some ("open " +:+ name +:+ ": is a directory")), w)
            else write (mode info)
        | None => write (os.Perm perm)
        end
      else (Val (Some ("open " +:+ name +:+ ": not a directory")), w)
  | None => (Val (Some ("open " +:+ name +:+ ": no such file or directory")), w)
  end.

End ioutil.

Module exec.

(** [exec.Command(name, arg...)] followed by [cmd.Run()], with both
    output streams captured. *)
Definition Run `{Platform} (command : list string) : M Process := fun w =>
  let '(p, fs', now') := exec_Run command (fs w) (now w) in
  (Val p,
   {| downloadRoot := downloadRoot w; fs := fs'; now := now';
      trace := trace w ++ [EvRun command] |}).

End exec.

(** ** The program *)

Module module.
Module Version.

Record t : Type := {
  Path : string;
  Version : string
}.

(** Modelled from the spec: [module.Version.String] of golang.org/x/mod
    is not part of the repository; the spec gives the argument the
    toolchain receives as [<module>@<version>].  (A coordinate without
    a version prints as its path.) *)
Definition String (m : t) : string :=
  if String.eqb (Version m) "" then Path m
  else Path m +:+ "@" +:+ Version m.

End Version.
End module.

(** The destination of [go list -m -json -versions]. *)
Module listResult.
Record t : Type := {
  Path : string;
  Versions : list string
}.
Definition zero : t := {| Path := ""; Versions := [] |}.
End listResult.

Module downloadInfo.
Record t : Type := {
  Path : string;
  Version : string;
  Info : string;
  GoMod : string;
  Zip : string;
  Dir : string;
  Sum : string;
  GoModSum : string
}.
(** [new(downloadInfo)]. *)
Definition new : t :=
  {| Path := ""; Version := ""; Info := ""; GoMod := ""; Zip := "";
     Dir := ""; Sum := ""; GoModSum := "" |}.
End downloadInfo.

Definition listExpire : Z := 5 * time.Minute.

(** The number that the octal digits [digits] write. *)
Definition octal (digits : list Z) : Z := fold_left (fun n d => 8 * n + d) digits 0.

(** The bytes [List] stores for a version list. *)
Definition listData (versions : list string) : string :=
  let data := strings.Join versions nl +:+ nl in
  if len data =? 1 then "" else data.

Section Program.
Context `{Platform}.

(** [loadRules] reads the rule file, one pattern per line. *)
Definition loadRules {R : Type} `{RegexpEngine R} (file : string)
  : M (result (list R)) :=
  if negb (String.eqb file "") then
    b ← ioutil.ReadFile file;
    match b with
    | Err e => mret (Err e)
    | Ok b => mret (compileRules (strings.Split b newline) [])
    end
  else mret (Ok []).

(** goJSON runs the go command and parses its JSON output into dst.
    The destination is passed by reference in the source; here the
    helper returns it next to the error. *)
Definition goJSON {A : Type} `{JSONDecoder A} (dst : A) (command : list string)
  : M (A * option error) :=
  match command with
  | [] => panic "runtime error: index out of range [0] with length 0"
  | _ :: _ =>
      p ← exec.Run command;
      match runErr p with
      | Some _ =>
          mret (dst, Some (strings.Join command " " +:+ ":" +:+ nl +:+
                           stderr p +:+ stdout p))
      | None =>
          match Unmarshal (stdout p) dst with
          | (dst', Some e) =>
              mret (dst', Some (strings.Join command " " +:+ ": reading json: " +:+ e))
          | (dst', None) => mret (dst', None)
          end
      end
  end.

Context `{JSONDecoder listResult.t} `{JSONDecoder downloadInfo.t}.

Definition download (m : module.Version.t) : M (downloadInfo.t * option error) :=
  goJSON downloadInfo.new
    ["go"; "mod"; "download"; "-json"; module.Version.String m].

Definition List (mpath : string) : M (result File) :=
  match module_EscapePath mpath with
  | Err e => mret (Err e)
  | Ok escMod =>
      fun w =>
      let file := filepath_Join (downloadRoot w) (escMod +:+ "/@v/listproxy") in
      (st ← os.Stat file;
       fresh ← match st with
               | Ok info => age ← time.Since (modTime info); mret (age <? listExpire)
               | Err _ => mret false
               end;
       if fresh : bool then os.Open file
       else
         r ← goJSON listResult.zero
               ["go"; "list"; "-m"; "-json"; "-versions"; mpath +:+ "@latest"];
         match r with
         | (_, Some e) => mret (Err e)
         | (list, None) =>
             if negb (String.eqb (listResult.Path list) mpath) then
               mret (Err ("go list -m: asked for " +:+ mpath +:+ " but got " +:+
                          listResult.Path list))
             else
               let data := listData (listResult.Versions list) in
               _ ← os.MkdirAll (path_Dir file) 755;
               werr ← ioutil.WriteFile file data 438;
               match werr with
               | Some e => mret (Err e)
               | None => os.Open file
               end
         end) w
  end.

Definition Latest (path : string) : M (result File) :=
  r ← download {| module.Version.Path := path; module.Version.Version := "latest" |};
  match r with
  | (_, Some e) => mret (Err e)
  | (d, None) => os.Open (downloadInfo.Info d)
  end.

Definition Info (m : module.Version.t) : M (result File) :=
  r ← download m;
  match r with
  | (_, Some e) => mret (Err e)
  | (d, None) => os.Open (downloadInfo.Info d)
  end.

Definition GoMod (m : module.Version.t) : M (result File) :=
  r ← download m;
  match r with
  | (_, Some e) => mret (Err e)
  | (d, None) => os.Open (downloadInfo.GoMod d)
  end.

Definition Zip (m : module.Version.t) : M (result File) :=
  r ← download m;
  match r with
  | (_, Some e) => mret (Err e)
  | (d, None) => os.Open (downloadInfo.Zip d)
  end.

End Program.

(** ** The request logger *)

(** The methods of [http.ResponseWriter] that set the status and the body. *)
Class http_ResponseWriter (W : Type) := {
  WriteHeader : Z -> W -> W;
  Write : string -> W -> W
}.

Module http.

Record Request : Type := { URL : string }.

(** The calls a handler makes on the writer it is given. *)
Inductive Call : Type :=
| CallWriteHeader (code : Z)
| CallWrite (body : string).

(** A handler: what it does to the world while it serves the request,
    and the calls it makes on its writer, in order. *)
Definition Handler : Type := Request -> M (list Call).

Definition call {W : Type} `{http_ResponseWriter W} (w : W) (c : Call) : W :=
  match c with
  | CallWriteHeader code => WriteHeader code w
  | CallWrite body => Write body w
  end.

Definition ServeHTTP {W : Type} `{http_ResponseWriter W}
    (h : Handler) (w : W) (r : Request) : M W :=
  calls ← h r;
  mret (fold_left call calls w).

(** The server's own writer: the status line goes out once, with the
    first [WriteHeader] or, as 200, with the first [Write]; later
    [WriteHeader] calls are superfluous and ignored. *)
Record response : Type := {
  status : option Z;
  body : string
}.

#[global] Instance response_writer : http_ResponseWriter response := {
  WriteHeader code w :=
    match status w with
    | Some _ => w
    | None => {| status := Some code; body := body w |}
    end;
  Write b w :=
    {| status := Some (default 200 (status w)); body := body w +:+ b |}
}.

End http.

(** A logger is an http.Handler that logs traffic to standard error. *)
Record logger : Type := { h : http.Handler }.

Record responseLogger (W : Type) : Type := {
  code : Z;
  ResponseWriter : W
}.
Arguments code {W} r.
Arguments ResponseWriter {W} r.

(** [WriteHeader] is the method of [responseLogger]; [Write] is promoted
    from the embedded writer. *)
#[export] Instance responseLogger_writer {W : Type} `{http_ResponseWriter W}
  : http_ResponseWriter (responseLogger W) := {
  WriteHeader c r := {| code := c; ResponseWriter := WriteHeader c (ResponseWriter r) |};
  Write b r := {| code := code r; ResponseWriter := Write b (ResponseWriter r) |}
}.

(** [log.Printf("%.3fs %d %s\n", elapsed, code, url)], the elapsed time
    kept as the Duration it is printed from. *)
Definition log_Printf (elapsed : Z) (status : Z) (url : string) : M unit := fun w =>
  (Val tt, emit (EvLog elapsed status url) w).

Definition logger_ServeHTTP {W : Type} `{http_ResponseWriter W}
    (l : logger) (w : W) (r : http.Request) : M W :=
  start ← time.Now;
  let rl := {| code := 200; ResponseWriter := w |} in
  rl ← http.ServeHTTP (h l) rl r;
  elapsed ← time.Since start;
  _ ← log_Printf elapsed (code rl) (http.URL r);
  mret (ResponseWriter rl).

(** ** Names for what the operations do *)

Section Observations.
Context `{Platform}.

(** What the helper leaves of the world: the files and the clock as the
    command left them, and its own line in the trace. *)
Definition afterRun (command : list string) (w : State) : State :=
  {| downloadRoot := downloadRoot w;
     fs := snd (fst (exec_Run command (fs w) (now w)));
     now := snd (exec_Run command (fs w) (now w));
     trace := trace w ++ [EvRun command] |}.

(** The cache file of a module whose path escapes to [escMod]. *)
Definition listFile (w : State) (escMod : string) : string :=
  filepath_Join (downloadRoot w) (escMod +:+ "/@v/listproxy").

(** The command [List] runs for a module. *)
Definition listCommand (mpath : string) : list string :=
  ["go"; "list"; "-m"; "-json"; "-versions"; mpath +:+ "@latest"].

(** What the go command answers to it. *)
Definition listReply (mpath : string) (w : State) : Process :=
  fst (fst (exec_Run (listCommand mpath) (fs w) (now w))).

(** The test [List] makes of the cache file: it is there and its age is
    below [listExpire]. *)
Definition isFresh (w : State) (file : string) : bool :=
  match fs w !! file with
  | Some info => time.Sub (now w) (modTime info) <? listExpire
  | None => false
  end.

(** The command [download] runs for a coordinate. *)
Definition downloadCommand (m : module.Version.t) : list string :=
  ["go"; "mod"; "download"; "-json"; module.Version.String m].

End Observations.

(** ** What a trace says *)

(** The commands run, in order. *)
Fixpoint runs (t : list Event) : list (list string) :=
  match t with
  | [] => []
  | EvRun command :: t' => command :: runs t'
  | _ :: t' => runs t'
  end.

(** The files written, with their bytes. *)
Fixpoint writes (t : list Event) : list (string * string) :=
  match t with
  | [] => []
  | EvWriteFile name contents _ :: t' => (name, contents) :: writes t'
  | _ :: t' => writes t'
  end.

(** The directories created, with the permission asked for. *)
Fixpoint mkdirs (t : list Event) : list (string * Z) :=
  match t with
  | [] => []
  | EvMkdirAll path perm :: t' => (path, perm) :: mkdirs t'
  | _ :: t' => mkdirs t'
  end.

(** The status codes logged. *)
Fixpoint logged (t : list Event) : list Z :=
  match t with
  | [] => []
  | EvLog _ status _ :: t' => status :: logged t'
  | _ :: t' => logged t'
  end.

(** The status a handler's calls leave in a [responseLogger] that starts
    at [status]: each [WriteHeader] replaces it. *)
Definition statusAfter (calls : list http.Call) (status : Z) : Z :=
  fold_left (fun s c => match c with
                        | http.CallWriteHeader c => c
                        | http.CallWrite _ => s
                        end) calls status.

Definition writesHeader (c : http.Call) : bool :=
  match c with
  | http.CallWriteHeader _ => true
  | http.CallWrite _ => false
  end.

(** ** Start-up *)

(** The environment of the process: [os.Getenv] gives the empty string for
    a variable that is not set. *)
Definition os_Getenv (environ : gmap string string) (key : string) : string :=
  default "" (environ !! key).

Definition os_Setenv (key value : string) (environ : gmap string string)
  : gmap string string :=
  <[key := value]> environ.

(** The globals that [flag.Parse] fills from the command line. *)
Record flags : Type := {
  listen : string;
  cacheDir : string;
  proxyHost : string;
  excludeHost : string;
  whitelistFile : string;
  blacklistFile : string
}.

(** The values of the flags when the command line gives none. *)
Definition defaultFlags : flags :=
  {| listen := "0.0.0.0:8081"; cacheDir := ""; proxyHost := ""; excludeHost := "";
     whitelistFile := ""; blacklistFile := "" |}.

(** What [init] does to the environment, after the flags are parsed. *)
Definition init (environ : gmap string string) : gmap string string :=
  let environ :=
    if String.eqb (os_Getenv environ "GIT_TERMINAL_PROMPT") ""
    then os_Setenv "GIT_TERMINAL_PROMPT" "0" environ
    else environ in
  if String.eqb (os_Getenv environ "GIT_SSH") "" &&
     String.eqb (os_Getenv environ "GIT_SSH_COMMAND") ""
  then os_Setenv "GIT_SSH_COMMAND" "ssh -o ControlMaster=no" environ
  else environ.

(** The destination of [go env -json GOPATH]. *)
Record goEnv : Type := { GOPATH : string }.

(** The handler [main] builds, inside its [logger]: the server of the
    proxy package on the operations, alone or behind the router. *)
Inductive handler (R : Type) : Type :=
| NewServer (o : ops R)
| NewRouter (o : ops R) (Pattern : string) (Proxy : string).
Arguments NewServer {R} o.
Arguments NewRouter {R} o Pattern Proxy.

(** How [main] ends: in [log.Fatal] with a message, or serving. *)
Inductive ending (R : Type) : Type :=
| Fatal (msg : string)
| ListenAndServe (addr : string) (handle : handler R).
Arguments Fatal {R} msg.
Arguments ListenAndServe {R} addr handle.

Definition setDownloadRoot (root : string) : M unit := fun w =>
  (Val tt, {| downloadRoot := root; fs := fs w; now := now w; trace := trace w |}).

Section Main.
Context `{Platform} {R : Type} `{RegexpEngine R} `{JSONDecoder goEnv}.

(** [filepath.SplitList]. *)
Variable filepath_SplitList : string -> list string.

(** [main], up to the call that serves: the environment it leaves, the
    messages it prints with [log.Printf] (before the prefix that
    [log.SetPrefix] puts in front of each), and its ending.  The go
    command of the platform is the one that runs under that environment. *)
Definition main (f : flags) (environ : gmap string string)
  : M (gmap string string * list string * ending R) :=
  environ ← (if negb (String.eqb (cacheDir f) "") then
               _ ← setDownloadRoot (filepath_Join (cacheDir f) "pkg/mod/cache/download");
               mret (os_Setenv "GOPATH" (cacheDir f) environ)
             else mret environ);
  r ← goJSON {| GOPATH := "" |} ["go"; "env"; "-json"; "GOPATH"];
  match r with
  | (_, Some err) => mret (environ, [], Fatal err)
  | (env, None) =>
      match filepath_SplitList (GOPATH env) with
      | [] => mret (environ, [], Fatal "missing $GOPATH")
      | first :: _ =>
          if String.eqb first "" then mret (environ, [], Fatal "missing $GOPATH")
          else
            _ ← setDownloadRoot (filepath_Join first "pkg/mod/cache/download");
            white ← loadRules (whitelistFile f);
            match white with
            | Err e => mret (environ, [], Fatal ("could not load whitelist: " +:+ e))
            | Ok whiteRules =>
                black ← loadRules (blacklistFile f);
                match black with
                | Err e => mret (environ, [], Fatal ("could not load blacklist: " +:+ e))
                | Ok blackRules =>
                    let o := {| whiteList := whiteRules; blackList := blackRules |} in
                    if negb (String.eqb (proxyHost f) "") then
                      mret (environ,
                            ["ProxyHost " +:+ proxyHost f +:+ nl] ++
                            (if negb (String.eqb (excludeHost f) "")
                             then ["ExcludeHost " +:+ excludeHost f +:+ nl] else []),
                            ListenAndServe (listen f)
                              (NewRouter o (excludeHost f) (proxyHost f)))
                    else
                      mret (environ, [], ListenAndServe (listen f) (NewServer o))
                end
            end
      end
  end.

End Main.

(** The command [main] runs to learn the GOPATH. *)
Definition goEnvCommand : list string := ["go"; "env"; "-json"; "GOPATH"].

(** What [loadRules] returns for a rule file, given the files on disk. *)
Definition loadedRules {R : Type} `{RegexpEngine R} (file : string)
    (files : gmap string FileInfo) : result (list R) :=
  if String.eqb file "" then Ok []
  else match files !! file with
       | Some info =>
           if isDir info then Err ("read " +:+ file +:+ ": is a directory")
           else compileRules (strings.Split (data info) newline) []
       | None => Err ("open " +:+ file +:+ ": no such file or directory")
       end.

(** The environment [main] leaves. *)
Definition mainEnviron (f : flags) (environ : gmap string string)
  : gmap string string :=
  if negb (String.eqb (cacheDir f) "") then os_Setenv "GOPATH" (cacheDir f) environ
  else environ.

(** The state with another download root. *)
Definition withRoot (root : string) (w : State) : State :=
  {| downloadRoot := root; fs := fs w; now := now w; trace := trace w |}.

(** The state in which [main] asks for the GOPATH. *)
Definition mainStart `{Platform} (f : flags) (w : State) : State :=
  if negb (String.eqb (cacheDir f) "")
  then withRoot (filepath_Join (cacheDir f) "pkg/mod/cache/download") w
  else w.

(** The state after [loadRules] has been at a rule file. *)
Definition afterLoad (file : string) (w : State) : State :=
  if String.eqb file "" then w else emit (EvReadFile file) w.

(** The files as the go command leaves them when [main] asks for the
    GOPATH. *)
Definition filesAtStart `{Platform} (w : State) : gmap string FileInfo :=
  snd (fst (exec_Run goEnvCommand (fs w) (now w))).

(** The operations inside a handler. *)
Definition handlerOps {R : Type} (handle : handler R) : ops R :=
  match handle with
  | NewServer o => o
  | NewRouter o _ _ => o
  end.

(** Whether the byte [c] occurs in [s]. *)
Fixpoint containsByte (s : string) (c : ascii) : bool :=
  match s with
  | EmptyString => false
  | String c' s' => Ascii.eqb c' c || containsByte s' c
  end.

(** The files read, in order. *)
Fixpoint reads (t : list Event) : list string :=
  match t with
  | [] => []
  | EvReadFile name :: t' => name :: reads t'
  | _ :: t' => reads t'
  end.

(** The files opened, in order. *)
Fixpoint opens (t : list Event) : list string :=
  match t with
  | [] => []
  | EvOpen name :: t' => name :: opens t'
  | _ :: t' => opens t'
  end.

(** ** A small machine to run the program on *)

Module Sample.

Definition isUpper (c : ascii) : bool :=
  (65 <=? Z.of_nat (nat_of_ascii c)) && (Z.of_nat (nat_of_ascii c) <=? 90).

Definition toLower (c : ascii) : ascii :=
  ascii_of_nat (nat_of_ascii c + 32).

Fixpoint escapeString (s : string) : string :=
  match s with
  | EmptyString => ""
  | String c s' =>
      if isUpper c then String "!" (String (toLower c) (escapeString s'))
      else String c (escapeString s')
  end.

(** Upper-case letters are escaped; the empty path is refused. *)
Definition EscapePath (path : string) : result string :=
  if String.eqb path "" then Err "malformed module path: empty string"
  else Ok (escapeString path).

Fixpoint hasSlash (s : string) : bool :=
  match s with
  | EmptyString => false
  | String c s' => Ascii.eqb c "/" || hasSlash s'
  end.

(** Everything before the last slash. *)
Fixpoint Dir (path : string) : string :=
  match path with
  | EmptyString => ""
  | String c path' => if hasSlash path' then String c (Dir path') else ""
  end.

(** A machine whose go command answers every request with [reply],
    after [elapsed] nanoseconds and without touching a file. *)
Definition platform (reply : Process) (elapsed : Z) : Platform := {|
  module_EscapePath := EscapePath;
  filepath_Join := fun dir name => dir +:+ "/" +:+ name;
  path_Dir := Dir;
  exec_Run := fun _ files clock => (reply, files, clock + elapsed)
|}.

(** A decoder that knows the outputs in [table] and rejects the rest. *)
Fixpoint decode {A : Type} (table : list (string * A)) (out : string) : option A :=
  match table with
  | [] => None
  | (text, a) :: table' => if String.eqb out text then Some a else decode table' out
  end.

Definition decoder {A : Type} (table : list (string * A)) : JSONDecoder A := {|
  Unmarshal := fun out dst =>
    match decode table out with
    | Some a => (a, None)
    | None => (dst, Some "invalid character looking for beginning of value")
    end
|}.

Definition exampleList : listResult.t :=
  {| listResult.Path := "example/module";
     listResult.Versions := ["v1.0.0"; "v1.1.0"] |}.

Definition otherList : listResult.t :=
  {| listResult.Path := "other/module";
     listResult.Versions := ["v1.0.0"] |}.

Definition exampleDownload : downloadInfo.t :=
  {| downloadInfo.Path := "example/module";
     downloadInfo.Version := "v1.1.0";
     downloadInfo.Info := "/go/pkg/mod/cache/download/example/module/@v/v1.1.0.info";
     downloadInfo.GoMod := "/go/pkg/mod/cache/download/example/module/@v/v1.1.0.mod";
     downloadInfo.Zip := "/go/pkg/mod/cache/download/example/module/@v/v1.1.0.zip";
     downloadInfo.Dir := "/go/pkg/mod/example/module@v1.1.0";
     downloadInfo.Sum := "h1:example";
     downloadInfo.GoModSum := "h1:examplemod" |}.

Definition listDecoder : JSONDecoder listResult.t :=
  decoder [("<example/module>", exampleList); ("<other/module>", otherList)].

Definition downloadDecoder : JSONDecoder downloadInfo.t :=
  decoder [("<example/module@v1.1.0>", exampleDownload)].

(** The rule a line of a rule file compiles to. *)
Definition rule (line : string) : regexp.Regexp :=
  match regexp.Compile ("^" +:+ line +:+ "$") with
  | Ok re => re
  | Err _ => regexp.NoMatch
  end.

Definition succeeded (out : string) : Process :=
  {| runErr := None; stdout := out; stderr := "" |}.

Definition failed (out err : string) : Process :=
  {| runErr := Some "exit status 1"; stdout := out; stderr := err |}.

(** A handler that answers 404 and then tries to answer 500. *)
Definition notFoundThenError : logger :=
  {| h := fun _ => mret (M := M) [http.CallWriteHeader 404; http.CallWriteHeader 500] |}.

Definition noResponse : http.response := {| http.status := None; http.body := "" |}.

Definition listRequest : http.Request := {| http.URL := "/example/module/@v/list" |}.

Definition root : string := "/go/pkg/mod/cache/download".
Definition cacheFile : string := "/go/pkg/mod/cache/download/example/module/@v/listproxy".

Definition file (contents : string) (mtime : Z) : FileInfo :=
  {| isDir := false; data := contents; modTime := mtime; mode := 420 |}.

(** A machine with nothing on disk, one minute after the epoch. *)
Definition fresh : State :=
  {| downloadRoot := root; fs := ∅; now := time.Minute; trace := [] |}.

(** A machine with a cache entry written at the epoch, [clock]
    nanoseconds after it. *)
Definition cached (contents : string) (clock : Z) : State :=
  {| downloadRoot := root; fs := {[ cacheFile := file contents 0 ]};
     now := clock; trace := [] |}.

(** The same machine, [elapsed] nanoseconds later. *)
Definition later (elapsed : Z) (w : State) : State :=
  {| downloadRoot := downloadRoot w; fs := fs w; now := now w + elapsed;
     trace := trace w |}.

(** A machine with the rule file ["rules"]. *)
Definition withRules (contents : string) : State :=
  {| downloadRoot := root; fs := {[ "rules" := file contents 0 ]};
     now := time.Minute; trace := [] |}.

(** [filepath.SplitList] on a machine whose list separator is the colon. *)
Definition SplitList (path : string) : list string :=
  if String.eqb path "" then [] else strings.Split path ":".

Definition gopathDecoder : JSONDecoder goEnv :=
  decoder [("<gopath /home/go>", {| GOPATH := "/home/go:/usr/share/go" |});
           ("<gopath>", {| GOPATH := "" |})].

(** A handler that only writes a body. *)
Definition bodyOnly : logger :=
  {| h := fun _ => mret (M := M) [http.CallWrite "v1.0.0"] |}.

(** A handler that panics. *)
Definition panics : logger := {| h := fun _ => panic "boom" |}.

(** A machine with a cache entry written one hour after the clock. *)
Definition cachedAhead (contents : string) : State :=
  {| downloadRoot := root; fs := {[ cacheFile := file contents (60 * time.Minute) ]};
     now := time.Minute; trace := [] |}.

(** A machine with an allow file and a deny file. *)
Definition withRuleFiles (allow deny : string) : State :=
  {| downloadRoot := ""; fs := {[ "allow" := file allow 0; "deny" := file deny 0 ]};
     now := time.Minute; trace := [] |}.

(** The flags of a start without arguments. *)
Definition defaults : flags := defaultFlags.

End Sample.

(** * Properties *)

(** ** The access filter *)

Section FilterFacts.
Context {R : Type} `{RegexpEngine R}.

Lemma anyMatch_true (rules : list R) (path : string) :
  anyMatch rules path = true <-> exists r, r ∈ rules /\ MatchString r path = true.
Proof.
  induction rules as [|r rules IH]; simpl.
  - split; [discriminate|]. intros (r & Hr & _). by apply elem_of_nil in Hr.
  - destruct (MatchString r path) eqn:Hm.
    + split; [|done]. intros _. exists r. split; [apply elem_of_cons; by left | done].
    + rewrite IH. split; intros (r' & Hr' & Hm').
      * exists r'. split; [apply elem_of_cons; by right | done].
      * apply elem_of_cons in Hr' as [-> | Hr']; [congruence | eauto].
Qed.

Lemma anyMatch_false (rules : list R) (path : string) :
  anyMatch rules path = false <-> forall r, r ∈ rules -> MatchString r path = false.
Proof.
  split.
  - intros Hno r Hr. destruct (MatchString r path) eqn:Hm; [|done].
    assert (anyMatch rules path = true) by (apply anyMatch_true; eauto). congruence.
  - intros Hall. destruct (anyMatch rules path) eqn:Hany; [|done].
    apply anyMatch_true in Hany as (r & Hr & Hm). rewrite (Hall r Hr) in Hm. done.
Qed.

(** Without an allow list nothing is looked at, not even the deny list. *)
Lemma Filter_no_allow (o : ops R) (path : string) :
  whiteList o = [] -> Filter o path = true.
Proof. intros Hw. unfold Filter. rewrite Hw. reflexivity. Qed.

Lemma Filter_with_allow (o : ops R) (path : string) :
  whiteList o <> [] ->
  Filter o path = negb (isBlacklisted o path) && isWhitelisted o path.
Proof.
  intros Hw. unfold Filter.
  destruct (whiteList o) as [|r rules] eqn:Hl; [done|].
  replace (0 <? Z.of_nat (length (r :: rules))) with true
    by (symmetry; apply Z.ltb_lt; simpl; lia).
  cbv zeta. destruct (isBlacklisted o path), (isWhitelisted o path); reflexivity.
Qed.

Lemma compileRules_app (lines : list string) (acc rules : list R) :
  compileRules lines acc = Ok rules ->
  exists compiled, rules = acc ++ compiled /\
    forall w, w ∈ lines ->
      exists r, Compile ("^" +:+ w +:+ "$") = Ok r /\ r ∈ compiled.
Proof.
  revert acc. induction lines as [|l lines IH]; intros acc; simpl.
  - intros [= <-]. exists []. split; [by rewrite app_nil_r|].
    intros w Hw. by apply elem_of_nil in Hw.
  - destruct (Compile ("^" +:+ l +:+ "$")) as [r|e] eqn:Hc; [|discriminate].
    intros Hrest. destruct (IH _ Hrest) as (compiled & -> & Hall).
    exists (r :: compiled). split; [by rewrite <- app_assoc|].
    intros w Hw. apply elem_of_cons in Hw as [-> | Hw].
    + exists r. split; [done | apply elem_of_cons; by left].
    + destruct (Hall w Hw) as (r' & Hr' & Hin).
      exists r'. split; [done | apply elem_of_cons; by right].
Qed.

End FilterFacts.

(** C1 (the code departs from the claim): with a deny rule that matches the
    path and no allow rule, [Filter] accepts the path.  The guard of the
    deny check tests the length of the allow list, although its comment
    speaks of the deny list. *)
Theorem Filter_deny_rule_without_allow_list :
  exists deny : regexp.Regexp,
    Compile "^internal/.*$" = Ok deny /\
    isBlacklisted {| whiteList := []; blackList := [deny] |} "internal/secret" = true /\
    Filter {| whiteList := []; blackList := [deny] |} "internal/secret" = true.
Proof. eexists. split; [reflexivity|]. split; vm_compute; reflexivity. Qed.

(** C7: for a path that matches no deny rule, [Filter] accepts it exactly
    when the allow list is empty or one of the allow rules matches it; and
    with no rules at all every path is accepted. *)
Theorem Filter_allow_rules {R : Type} `{RegexpEngine R} (o : ops R) (path : string)
    (Hdeny : forall r, r ∈ blackList o -> MatchString r path = false) :
  (Filter o path = true <->
   whiteList o = [] \/ exists r, r ∈ whiteList o /\ MatchString r path = true) /\
  (whiteList o = [] -> blackList o = [] -> forall p, Filter o p = true).
Proof.
  split.
  - apply anyMatch_false in Hdeny.
    destruct (whiteList o) as [|r rules] eqn:Hl.
    + rewrite Filter_no_allow by done. split; [by left | done].
    + rewrite Filter_with_allow by congruence.
      unfold isBlacklisted. rewrite Hdeny. simpl.
      unfold isWhitelisted. rewrite Hl, anyMatch_true.
      split; [by right | by intros [? | ?]].
  - intros Hw _ p. by apply Filter_no_allow.
Qed.

Lemma Filter_allow_rules_witness :
  Filter {| whiteList := [Sample.rule "example/.*"];
            blackList := [Sample.rule "internal/.*"] |} "example/module" = true.
Proof.
  refine (proj2 (proj1 (Filter_allow_rules
           {| whiteList := [Sample.rule "example/.*"];
              blackList := [Sample.rule "internal/.*"] |} "example/module" _)) _).
  - intros r Hr. apply list_elem_of_singleton in Hr. subst r. vm_compute. reflexivity.
  - right. exists (Sample.rule "example/.*").
    split; [apply list_elem_of_singleton; reflexivity | vm_compute; reflexivity].
Defined.

(** C3 (as stated, refuted): a rule file that ends in a newline compiles to
    a list that is not empty and that the empty path matches. *)
Lemma empty_path_matches_rule_file :
  ~ (forall (w : State) (file : string) (rules : list regexp.Regexp),
       fst (loadRules file w) = Val (Ok rules) ->
       rules <> [] -> anyMatch rules "" = false).
Proof.
  intros Hnever.
  specialize (Hnever (Sample.withRules ("example/.*" +:+ nl)) "rules"
                [Sample.rule "example/.*"; Sample.rule ""]).
  assert (Hmatch : anyMatch [Sample.rule "example/.*"; Sample.rule ""] "" = true)
    by (vm_compute; reflexivity).
  rewrite Hnever in Hmatch; [discriminate | vm_compute; reflexivity | discriminate].
Qed.

(** C3 (amended): the empty path matches a list of rules exactly when one
    of them accepts the empty string; the rule [^$], which an empty line of
    the rule file compiles to, puts such a rule in the list whenever the
    engine lets it match the empty string; and [Filter] rejects the empty
    path only when there is an allow list or a deny rule matches it. *)
Theorem empty_path_rules {R : Type} `{RegexpEngine R} (o : ops R) :
  (forall rules : list R,
     anyMatch rules "" = true <-> exists r, r ∈ rules /\ MatchString r "" = true) /\
  (forall (w : State) (file : string) (info : FileInfo) (rules : list R) (r0 : R),
     Compile "^$" = Ok r0 -> MatchString r0 "" = true ->
     file <> "" -> fs w !! file = Some info -> isDir info = false ->
     "" ∈ strings.Split (data info) newline ->
     fst (loadRules file w) = Val (Ok rules) ->
     anyMatch rules "" = true) /\
  (Filter o "" = false ->
   whiteList o <> [] \/ exists r, r ∈ blackList o /\ MatchString r "" = true).
Proof.
  split; [|split].
  - intros rules. apply anyMatch_true.
  - intros w file info rules r0 Hc Hm Hfile Hfs Hdir Hline Hload.
    unfold loadRules in Hload.
    destruct (String.eqb file "") eqn:Hne; [by apply String.eqb_eq in Hne|].
    unfold mbind, M_bind, ioutil.ReadFile in Hload. simpl in Hload.
    rewrite Hfs, Hdir in Hload. injection Hload as Hload.
    apply compileRules_app in Hload as (compiled & -> & Hall).
    destruct (Hall "" Hline) as (r & Hr & Hin).
    change ("^" +:+ "" +:+ "$") with "^$" in Hr.
    rewrite Hc in Hr. injection Hr as <-.
    apply anyMatch_true. exists r0. split; [by apply elem_of_app; right | done].
  - intros Hf. left. intros Hw. rewrite Filter_no_allow in Hf by done. discriminate.
Qed.

Lemma empty_path_rules_witness :
  anyMatch [Sample.rule "example/.*"; Sample.rule ""] "" = true /\
  ([Sample.rule "example/.*"] <> [] \/
   exists r : regexp.Regexp, r ∈ [] /\ MatchString r "" = true).
Proof.
  pose (o := {| whiteList := [Sample.rule "example/.*"]; blackList := [] |}).
  destruct (empty_path_rules o) as (_ & Hfile & Hfilter).
  split.
  - apply (Hfile (Sample.withRules ("example/.*" +:+ nl)) "rules"
             (Sample.file ("example/.*" +:+ nl) 0) _ (Sample.rule "")).
    + reflexivity.
    + vm_compute. reflexivity.
    + discriminate.
    + vm_compute. reflexivity.
    + reflexivity.
    + vm_compute. apply elem_of_cons. right. apply list_elem_of_singleton. reflexivity.
    + vm_compute. reflexivity.
  - apply Hfilter. vm_compute. reflexivity.
Defined.

(** ** The stored version list *)

Lemma len_append (s t : string) : len (s +:+ t) = len s + len t.
Proof.
  unfold len. induction s as [|c s IH].
  - change ("" +:+ t) with t. change (String.length "") with 0%nat. lia.
  - change (String c s +:+ t) with (String c (s +:+ t)).
    change (String.length (String c (s +:+ t))) with (S (String.length (s +:+ t))).
    change (String.length (String c s)) with (S (String.length s)). lia.
Qed.

Lemma len_nonneg (s : string) : 0 <= len s.
Proof. unfold len. lia. Qed.

Lemma len_nonempty (s : string) : s <> "" -> 1 <= len s.
Proof. destruct s; [done|]. intros _. unfold len. simpl. lia. Qed.

Lemma listData_joined (versions : list string) :
  1 < len (strings.Join versions nl +:+ nl) ->
  listData versions = strings.Join versions nl +:+ nl.
Proof.
  intros Hlen. unfold listData.
  destruct (len (strings.Join versions nl +:+ nl) =? 1) eqn:Hone; [|done].
  apply Z.eqb_eq in Hone. lia.
Qed.

(** A list with a version in it, other than the single empty version, is
    stored as its lines. *)
Lemma listData_nonempty (v : string) (versions : list string) :
  v <> "" \/ versions <> [] ->
  listData (v :: versions) = strings.Join (v :: versions) nl +:+ nl.
Proof.
  intros Hversion.
  apply listData_joined. rewrite len_append. change (len nl) with 1.
  destruct versions as [|v' versions].
  - destruct Hversion as [Hv | Hnil]; [|done].
    simpl. pose proof (len_nonempty v Hv). lia.
  - change (strings.Join (v :: v' :: versions) nl)
      with (v +:+ nl +:+ strings.Join (v' :: versions) nl).
    rewrite !len_append. change (len nl) with 1.
    pose proof (len_nonneg v). pose proof (len_nonneg (strings.Join (v' :: versions) nl)).
    lia.
Qed.

(** ** The toolchain helper *)

Section Toolchain.
Context `{Platform} {A : Type} `{JSONDecoder A}.

(** The helper runs its command once, whatever comes of it. *)
Lemma goJSON_trace (dst : A) (command : list string) (w : State) :
  command <> [] ->
  trace (snd (goJSON dst command w)) = trace w ++ [EvRun command].
Proof.
  intros Hcmd. destruct command as [|name args]; [done|].
  unfold goJSON, mbind, M_bind, exec.Run.
  destruct (exec_Run (name :: args) (fs w) (now w)) as [[p files] clock].
  destruct (runErr p); [reflexivity|].
  destruct (Unmarshal (stdout p) dst) as [dst' [e|]]; reflexivity.
Qed.

Lemma goJSON_state (dst : A) (command : list string) (w : State) :
  command <> [] -> snd (goJSON dst command w) = afterRun command w.
Proof.
  intros Hcmd. destruct command as [|name args]; [done|].
  unfold goJSON, mbind, M_bind, exec.Run, afterRun.
  destruct (exec_Run (name :: args) (fs w) (now w)) as [[p files] clock].
  destruct (runErr p); [reflexivity|].
  destruct (Unmarshal (stdout p) dst) as [dst' [e|]]; reflexivity.
Qed.

End Toolchain.

(** C8: the helper, run on a command: when the command fails, the error is
    the command line, a colon and a newline, then the captured standard
    error and standard output; when it succeeds and the decoder rejects the
    output, the error is the command line followed by [: reading json: ]
    and the decoder's error; when the decoder accepts the output, the
    destination is the decoded record and there is no error. *)
Theorem goJSON_outcomes `{Platform} {A : Type} `{JSONDecoder A}
    (dst : A) (command : list string) (w : State) (Hcmd : command <> []) :
  let p := fst (fst (exec_Run command (fs w) (now w))) in
  let line := strings.Join command " " in
  (runErr p <> None ->
   fst (goJSON dst command w) =
   Val (dst, Some (line +:+ ":" +:+ nl +:+ stderr p +:+ stdout p))) /\
  (runErr p = None ->
   forall (dst' : A) (e : error), Unmarshal (stdout p) dst = (dst', Some e) ->
   fst (goJSON dst command w) = Val (dst', Some (line +:+ ": reading json: " +:+ e))) /\
  (runErr p = None ->
   forall dst' : A, Unmarshal (stdout p) dst = (dst', None) ->
   fst (goJSON dst command w) = Val (dst', None)).
Proof.
  destruct command as [|name args]; [done|].
  unfold goJSON, mbind, M_bind, exec.Run.
  destruct (exec_Run (name :: args) (fs w) (now w)) as [[p files] clock].
  cbv zeta. change (fst (fst (p, files, clock))) with p.
  split; [|split].
  - intros Hfail. destruct (runErr p); [reflexivity | done].
  - intros Hrun dst' e Hdec. rewrite Hrun, Hdec. reflexivity.
  - intros Hrun dst' Hdec. rewrite Hrun, Hdec. reflexivity.
Qed.

Lemma goJSON_outcomes_witness :
  let command := ["go"; "list"; "-m"; "-json"; "-versions"; "example/module@latest"] in
  fst (@goJSON (Sample.platform (Sample.failed "out" "err") time.Second) _
         Sample.listDecoder listResult.zero command Sample.fresh) =
    Val (listResult.zero,
         Some ("go list -m -json -versions example/module@latest:" +:+ nl +:+ "errout")) /\
  fst (@goJSON (Sample.platform (Sample.succeeded "<html>") time.Second) _
         Sample.listDecoder listResult.zero command Sample.fresh) =
    Val (listResult.zero,
         Some ("go list -m -json -versions example/module@latest: reading json: " +:+
               "invalid character looking for beginning of value")) /\
  fst (@goJSON (Sample.platform (Sample.succeeded "<example/module>") time.Second) _
         Sample.listDecoder listResult.zero command Sample.fresh) =
    Val (Sample.exampleList, None).
Proof.
  intros command.
  assert (Hcmd : command <> []) by discriminate.
  split; [|split].
  - apply (@goJSON_outcomes (Sample.platform (Sample.failed "out" "err") time.Second) _
             Sample.listDecoder listResult.zero command Sample.fresh Hcmd).
    discriminate.
  - apply (@goJSON_outcomes (Sample.platform (Sample.succeeded "<html>") time.Second) _
             Sample.listDecoder listResult.zero command Sample.fresh Hcmd);
      reflexivity.
  - apply (@goJSON_outcomes
             (Sample.platform (Sample.succeeded "<example/module>") time.Second) _
             Sample.listDecoder listResult.zero command Sample.fresh Hcmd);
      reflexivity.
Defined.

(** ** The request logger *)

Lemma logged_app (t1 t2 : list Event) : logged (t1 ++ t2) = logged t1 ++ logged t2.
Proof.
  induction t1 as [|e t1 IH]; [reflexivity|].
  destruct e; simpl; rewrite ?IH; reflexivity.
Qed.

Lemma statusAfter_app (calls1 calls2 : list http.Call) (status : Z) :
  statusAfter (calls1 ++ calls2) status = statusAfter calls2 (statusAfter calls1 status).
Proof. unfold statusAfter. apply fold_left_app. Qed.

(** Calls that write no header leave the recorded status alone. *)
Lemma statusAfter_no_header (calls : list http.Call) (status : Z) :
  Forall (fun c => writesHeader c = false) calls -> statusAfter calls status = status.
Proof.
  induction 1 as [|c calls Hc _ IH]; [reflexivity|].
  destruct c; [discriminate|]. exact IH.
Qed.

Section Logger.
Context {W : Type} `{http_ResponseWriter W}.

(** The wrapper passes every call on and keeps the status of the latest
    [WriteHeader]. *)
Lemma responseLogger_calls (calls : list http.Call) (status : Z) (w : W) :
  fold_left http.call calls {| code := status; ResponseWriter := w |} =
  {| code := statusAfter calls status; ResponseWriter := fold_left http.call calls w |}.
Proof.
  revert status w. induction calls as [|c calls IH]; intros status w; [reflexivity|].
  destruct c; simpl; rewrite IH; reflexivity.
Qed.

(** One line per request, with the status the wrapper recorded. *)
Lemma logger_ServeHTTP_logs (l : logger) (w : W) (r : http.Request)
    (st st' : State) (calls : list http.Call) :
  h l r st = (Val calls, st') ->
  logged (trace (snd (logger_ServeHTTP l w r st))) =
  logged (trace st') ++ [statusAfter calls 200].
Proof.
  intros Hh.
  unfold logger_ServeHTTP, http.ServeHTTP, mbind, M_bind, mret, M_ret,
    time.Now, time.Since, log_Printf.
  rewrite Hh, responseLogger_calls. simpl.
  rewrite logged_app. reflexivity.
Qed.

(** A handler that never writes a status is logged with 200. *)
Lemma logger_default_status (l : logger) (w : W) (r : http.Request)
    (st st' : State) (calls : list http.Call) :
  h l r st = (Val calls, st') ->
  Forall (fun c => writesHeader c = false) calls ->
  logged (trace (snd (logger_ServeHTTP l w r st))) = logged (trace st') ++ [200].
Proof.
  intros Hh Hno. rewrite (logger_ServeHTTP_logs _ _ _ _ _ _ Hh).
  by rewrite statusAfter_no_header.
Qed.

End Logger.

(** C2 (as stated, refuted): a handler that writes 404 and then 500 is not
    logged with 404 (while the server has sent 404). *)
Lemma logger_does_not_log_first_status :
  logged (trace (snd (logger_ServeHTTP Sample.notFoundThenError Sample.noResponse
                        Sample.listRequest Sample.fresh))) <> [404] /\
  fst (logger_ServeHTTP Sample.notFoundThenError Sample.noResponse
         Sample.listRequest Sample.fresh) =
  Val {| http.status := Some 404; http.body := "" |}.
Proof. split; [vm_compute; discriminate | vm_compute; reflexivity]. Qed.

(** C2 (amended): the status logged is the last one the inner handler
    writes: when the handler's calls end with a [WriteHeader] of [status]
    followed by calls that write no header, the line logged for the request
    carries [status]; a handler that writes 404 and then 500 is logged
    with 500. *)
Theorem logger_logs_last_status {W : Type} `{http_ResponseWriter W}
    (l : logger) (w : W) (r : http.Request) (st st' : State)
    (before after : list http.Call) (status : Z)
    (Hcalls : h l r st = (Val (before ++ http.CallWriteHeader status :: after), st'))
    (Hlast : Forall (fun c => writesHeader c = false) after) :
  logged (trace (snd (logger_ServeHTTP l w r st))) = logged (trace st') ++ [status].
Proof.
  rewrite (logger_ServeHTTP_logs _ _ _ _ _ _ Hcalls).
  rewrite statusAfter_app.
  change (statusAfter (http.CallWriteHeader status :: after) (statusAfter before 200))
    with (statusAfter after status).
  by rewrite statusAfter_no_header.
Qed.

Lemma logger_logs_last_status_witness :
  logged (trace (snd (logger_ServeHTTP Sample.notFoundThenError Sample.noResponse
                        Sample.listRequest Sample.fresh))) = [500].
Proof.
  apply (logger_logs_last_status Sample.notFoundThenError Sample.noResponse
           Sample.listRequest Sample.fresh Sample.fresh
           [http.CallWriteHeader 404] [] 500).
  - reflexivity.
  - constructor.
Defined.

(** ** The version-list cache *)

Lemma Sub_lt_listExpire (t u : Z) : (time.Sub t u <? listExpire) = (t - u <? listExpire).
Proof.
  unfold time.Sub, time.minDuration, time.maxDuration, listExpire, time.Minute,
    time.Second, time.Nanosecond.
  destruct (t - u <? 5 * (60 * (1000000000 * 1))) eqn:Hlt.
  - apply Z.ltb_lt. apply Z.ltb_lt in Hlt. lia.
  - apply Z.ltb_ge. apply Z.ltb_ge in Hlt. lia.
Qed.

Lemma MkdirAll_returns (path : string) (perm : Z) (w : State) :
  exists e, os.MkdirAll path perm w = (Val e, snd (os.MkdirAll path perm w)).
Proof.
  unfold os.MkdirAll. cbv zeta.
  destruct (fs (emit (EvMkdirAll path perm) w) !! path) as [info|]; [|by eexists].
  destruct (isDir info); by eexists.
Qed.

Section Cache.
Context `{Platform} `{JSONDecoder listResult.t}.

(** [List], one decision after the other. *)
Lemma List_unfold (mpath : string) (w : State) :
  List mpath w =
  match module_EscapePath mpath with
  | Err e => (Val (Err e), w)
  | Ok escMod =>
      let file := listFile w escMod in
      let w1 := emit (EvStat file) w in
      if isFresh w file then os.Open file w1
      else
        let w2 := afterRun (listCommand mpath) w1 in
        let p := fst (fst (exec_Run (listCommand mpath) (fs w) (now w))) in
        match runErr p with
        | Some _ =>
            (Val (Err (strings.Join (listCommand mpath) " " +:+ ":" +:+ nl +:+
                       stderr p +:+ stdout p)), w2)
        | None =>
            match Unmarshal (stdout p) listResult.zero with
            | (_, Some e) =>
                (Val (Err (strings.Join (listCommand mpath) " " +:+
                           ": reading json: " +:+ e)), w2)
            | (list, None) =>
                if negb (String.eqb (listResult.Path list) mpath) then
                  (Val (Err ("go list -m: asked for " +:+ mpath +:+ " but got " +:+
                             listResult.Path list)), w2)
                else
                  let w3 := snd (os.MkdirAll (path_Dir file) 755 w2) in
                  match ioutil.WriteFile file
                          (listData (listResult.Versions list)) 438 w3 with
                  | (Val (Some e), w4) => (Val (Err e), w4)
                  | (Val None, w4) => os.Open file w4
                  | (Panic msg, w4) => (Panic msg, w4)
                  end
            end
        end
  end.
Proof.
  unfold List. destruct (module_EscapePath mpath) as [escMod|e]; [|reflexivity].
  cbv zeta. fold (listFile w escMod). set (file := listFile w escMod).
  assert (Hmiss :
    (r ← goJSON listResult.zero
           ["go"; "list"; "-m"; "-json"; "-versions"; mpath +:+ "@latest"];
     match r with
     | (_, Some e) => mret (Err e)
     | (list, None) =>
         if negb (String.eqb (listResult.Path list) mpath) then
           mret (Err ("go list -m: asked for " +:+ mpath +:+ " but got " +:+
                      listResult.Path list))
         else
           let data := listData (listResult.Versions list) in
           _ ← os.MkdirAll (path_Dir file) 755;
           werr ← ioutil.WriteFile file data 438;
           match werr with
           | Some e => mret (Err e)
           | None => os.Open file
           end
     end) (emit (EvStat file) w) =
    let w2 := afterRun (listCommand mpath) (emit (EvStat file) w) in
    let p := fst (fst (exec_Run (listCommand mpath) (fs w) (now w))) in
    match runErr p with
    | Some _ =>
        (Val (Err (strings.Join (listCommand mpath) " " +:+ ":" +:+ nl +:+
                   stderr p +:+ stdout p)), w2)
    | None =>
        match Unmarshal (stdout p) listResult.zero with
        | (_, Some e) =>
            (Val (Err (strings.Join (listCommand mpath) " " +:+
                       ": reading json: " +:+ e)), w2)
        | (list, None) =>
            if negb (String.eqb (listResult.Path list) mpath) then
              (Val (Err ("go list -m: asked for " +:+ mpath +:+ " but got " +:+
                         listResult.Path list)), w2)
            else
              let w3 := snd (os.MkdirAll (path_Dir file) 755 w2) in
              match ioutil.WriteFile file
                      (listData (listResult.Versions list)) 438 w3 with
              | (Val (Some e), w4) => (Val (Err e), w4)
              | (Val None, w4) => os.Open file w4
              | (Panic msg, w4) => (Panic msg, w4)
              end
        end
    end).
  { unfold goJSON, mbind, M_bind, mret, M_ret, exec.Run, afterRun.
    fold (listCommand mpath).
    change (fs (emit (EvStat file) w)) with (fs w).
    change (now (emit (EvStat file) w)) with (now w).
    destruct (exec_Run (listCommand mpath) (fs w) (now w)) as [[p files] clock].
    cbv zeta. cbn [fst snd].
    destruct (runErr p); [reflexivity|].
    destruct (Unmarshal (stdout p) listResult.zero) as [list [e|]]; [reflexivity|].
    destruct (negb (String.eqb (listResult.Path list) mpath)); [reflexivity|].
    destruct (MkdirAll_returns (path_Dir file) 755
                {| downloadRoot := downloadRoot (emit (EvStat file) w);
                   fs := files; now := clock;
                   trace := trace (emit (EvStat file) w) ++ [EvRun (listCommand mpath)] |})
      as [e0 ->].
    destruct (ioutil.WriteFile file (listData (listResult.Versions list)) 438 _)
      as [[[e|]|msg] w4]; reflexivity. }
  unfold isFresh. unfold mbind at 1 2. unfold M_bind at 1 2. unfold os.Stat.
  change (fs (emit (EvStat file) w)) with (fs w).
  destruct (fs w !! file) as [info|] eqn:Hfile.
  - unfold time.Since. unfold mbind at 1. unfold M_bind at 1. unfold mret, M_ret.
    change (now (emit (EvStat file) w)) with (now w).
    destruct (time.Sub (now w) (modTime info) <? listExpire); [reflexivity|].
    exact Hmiss.
  - unfold mret at 1. unfold M_ret at 1. exact Hmiss.
Qed.

End Cache.

Section CacheFacts.
Context `{Platform} `{JSONDecoder listResult.t}.

Lemma isFresh_age (w : State) (file : string) (info : FileInfo) :
  fs w !! file = Some info ->
  isFresh w file = (now w - modTime info <? listExpire).
Proof. intros Hfile. unfold isFresh. rewrite Hfile. apply Sub_lt_listExpire. Qed.

(** A fresh entry is opened and nothing else happens. *)
Lemma List_hit (mpath escMod : string) (w : State) :
  module_EscapePath mpath = Ok escMod ->
  isFresh w (listFile w escMod) = true ->
  List mpath w =
  os.Open (listFile w escMod) (emit (EvStat (listFile w escMod)) w).
Proof. intros Hesc Hfresh. rewrite List_unfold, Hesc. cbv zeta. by rewrite Hfresh. Qed.

Lemma runs_app (t1 t2 : list Event) : runs (t1 ++ t2) = runs t1 ++ runs t2.
Proof.
  induction t1 as [|e t1 IH]; [reflexivity|].
  destruct e; simpl; rewrite ?IH; reflexivity.
Qed.

Lemma writes_app (t1 t2 : list Event) : writes (t1 ++ t2) = writes t1 ++ writes t2.
Proof.
  induction t1 as [|e t1 IH]; [reflexivity|].
  destruct e; simpl; rewrite ?IH; reflexivity.
Qed.

Lemma mkdirs_app (t1 t2 : list Event) : mkdirs (t1 ++ t2) = mkdirs t1 ++ mkdirs t2.
Proof.
  induction t1 as [|e t1 IH]; [reflexivity|].
  destruct e; simpl; rewrite ?IH; reflexivity.
Qed.

Lemma MkdirAll_trace (path : string) (perm : Z) (w : State) :
  trace (snd (os.MkdirAll path perm w)) = trace w ++ [EvMkdirAll path perm].
Proof.
  unfold os.MkdirAll. cbv zeta.
  destruct (fs (emit (EvMkdirAll path perm) w) !! path) as [info|]; [|reflexivity].
  destruct (isDir info); reflexivity.
Qed.

Lemma MkdirAll_root (path : string) (perm : Z) (w : State) :
  downloadRoot (snd (os.MkdirAll path perm w)) = downloadRoot w.
Proof.
  unfold os.MkdirAll. cbv zeta.
  destruct (fs (emit (EvMkdirAll path perm) w) !! path) as [info|]; [|reflexivity].
  destruct (isDir info); reflexivity.
Qed.

(** [WriteFile] succeeds or fails, and says so in the trace. *)
Lemma WriteFile_returns (name contents : string) (perm : Z) (w : State) :
  exists werr w',
    ioutil.WriteFile name contents perm w = (Val werr, w') /\
    trace w' = trace w ++ [EvWriteFile name contents perm] /\
    downloadRoot w' = downloadRoot w /\
    (werr = None ->
     exists m, fs w' !! name =
               Some {| isDir := false; data := contents; modTime := now w; mode := m |}).
Proof.
  unfold ioutil.WriteFile. cbv zeta.
  change (fs (emit (EvWriteFile name contents perm) w)) with (fs w).
  destruct (fs w !! path_Dir name) as [dir|]; [|by eexists _, _].
  destruct (isDir dir); [|by eexists _, _].
  destruct (fs w !! name) as [info|].
  - destruct (isDir info); [by eexists _, _|].
    eexists _, _. split; [reflexivity|]. split; [reflexivity|]. split; [reflexivity|].
    intros _. eexists. cbn [fs]. apply lookup_insert_eq.
  - eexists _, _. split; [reflexivity|]. split; [reflexivity|]. split; [reflexivity|].
    intros _. eexists. cbn [fs]. apply lookup_insert_eq.
Qed.

(** The trace of a call: what was there, then one of five runs of
    events. *)
Lemma List_trace (mpath : string) (w : State) :
  exists (file : string) (contents : string) (t : list Event),
    trace (snd (List mpath w)) = trace w ++ t /\
    (t = [] \/
     t = [EvStat file; EvOpen file] \/
     t = [EvStat file; EvRun (listCommand mpath)] \/
     t = [EvStat file; EvRun (listCommand mpath);
          EvMkdirAll (path_Dir file) 755; EvWriteFile file contents 438] \/
     t = [EvStat file; EvRun (listCommand mpath);
          EvMkdirAll (path_Dir file) 755; EvWriteFile file contents 438;
          EvOpen file]).
Proof.
  rewrite List_unfold.
  destruct (module_EscapePath mpath) as [escMod|e].
  2:{ exists "", "", []. split; [by rewrite app_nil_r | by left]. }
  cbv zeta. set (file := listFile w escMod).
  destruct (isFresh w file).
  { exists file, "", [EvStat file; EvOpen file].
    split; [simpl; by rewrite <- app_assoc | right; by left]. }
  destruct (runErr _).
  { exists file, "", [EvStat file; EvRun (listCommand mpath)].
    split; [simpl; by rewrite <- app_assoc | right; right; by left]. }
  destruct (Unmarshal _ _) as [list [e|]].
  { exists file, "", [EvStat file; EvRun (listCommand mpath)].
    split; [simpl; by rewrite <- app_assoc | right; right; by left]. }
  destruct (negb _).
  { exists file, "", [EvStat file; EvRun (listCommand mpath)].
    split; [simpl; by rewrite <- app_assoc | right; right; by left]. }
  exists file, (listData (listResult.Versions list)).
  set (w2 := afterRun (listCommand mpath) (emit (EvStat file) w)).
  set (w3 := snd (os.MkdirAll (path_Dir file) 755 w2)).
  destruct (WriteFile_returns file (listData (listResult.Versions list)) 438 w3)
    as (werr & w4 & -> & Htrace & _ & _).
  assert (Hw4 : trace w4 = trace w ++
            [EvStat file; EvRun (listCommand mpath);
             EvMkdirAll (path_Dir file) 755;
             EvWriteFile file (listData (listResult.Versions list)) 438]).
  { rewrite Htrace. unfold w3. rewrite MkdirAll_trace. unfold w2. simpl.
    by rewrite <- !app_assoc. }
  destruct werr as [e|].
  - eexists. split; [exact Hw4 | right; right; right; by left].
  - eexists. split; [|right; right; right; by right].
    simpl. rewrite Hw4. by rewrite <- app_assoc.
Qed.

Lemma List_runs_le (mpath : string) (w : State) :
  (length (runs (trace (snd (List mpath w)))) <= length (runs (trace w)) + 1)%nat.
Proof.
  destruct (List_trace mpath w) as (file & contents & t & -> & Ht).
  rewrite runs_app, length_app.
  destruct Ht as [-> | [-> | [-> | [-> | ->]]]]; simpl; lia.
Qed.

(** The way through [List] when the entry is stale or missing and the go
    command answers for the module asked for: the directory is made, the
    file is written and, when that worked, opened. *)
Lemma List_refresh (mpath escMod : string) (w : State) (list : listResult.t) :
  module_EscapePath mpath = Ok escMod ->
  isFresh w (listFile w escMod) = false ->
  runErr (listReply mpath w) = None ->
  Unmarshal (stdout (listReply mpath w)) listResult.zero = (list, None) ->
  listResult.Path list = mpath ->
  exists werr w4,
    ioutil.WriteFile (listFile w escMod) (listData (listResult.Versions list)) 438
      (snd (os.MkdirAll (path_Dir (listFile w escMod)) 755
              (afterRun (listCommand mpath) (emit (EvStat (listFile w escMod)) w))))
    = (Val werr, w4) /\
    trace w4 = trace w ++
      [EvStat (listFile w escMod); EvRun (listCommand mpath);
       EvMkdirAll (path_Dir (listFile w escMod)) 755;
       EvWriteFile (listFile w escMod) (listData (listResult.Versions list)) 438] /\
    downloadRoot w4 = downloadRoot w /\
    (werr = None ->
     exists m, fs w4 !! listFile w escMod =
       Some {| isDir := false; data := listData (listResult.Versions list);
               modTime := snd (exec_Run (listCommand mpath) (fs w) (now w));
               mode := m |}) /\
    List mpath w =
    match werr with
    | Some e => (Val (Err e), w4)
    | None => os.Open (listFile w escMod) w4
    end.
Proof.
  intros Hesc Hstale Hrun Hdec Hpath.
  rewrite List_unfold, Hesc. cbv zeta. rewrite Hstale.
  fold (listReply mpath w). rewrite Hrun, Hdec.
  replace (String.eqb (listResult.Path list) mpath) with true
    by (symmetry; by apply String.eqb_eq).
  cbn [negb].
  set (file := listFile w escMod).
  set (w2 := afterRun (listCommand mpath) (emit (EvStat file) w)).
  set (w3 := snd (os.MkdirAll (path_Dir file) 755 w2)).
  destruct (WriteFile_returns file (listData (listResult.Versions list)) 438 w3)
    as (werr & w4 & Hwrite & Htrace & Hroot & Hfile).
  exists werr, w4. rewrite Hwrite.
  split; [reflexivity|]. split; [|split; [|split]].
  - rewrite Htrace. unfold w3. rewrite MkdirAll_trace. unfold w2. simpl.
    by rewrite <- !app_assoc.
  - rewrite Hroot. unfold w3. rewrite MkdirAll_root. reflexivity.
  - intros Hok. destruct (Hfile Hok) as [m Hm]. exists m. rewrite Hm.
    do 2 f_equal. unfold w3, os.MkdirAll. cbv zeta.
    destruct (fs (emit _ w2) !! path_Dir file) as [info|]; [|reflexivity].
    destruct (isDir info); reflexivity.
  - destruct werr; reflexivity.
Qed.

End CacheFacts.


(** C4: when the cache file of a module is a regular file younger than
    five minutes, [List] returns its bytes and runs no command; and when a
    call has returned a file and the entry it left is still there and still
    younger than five minutes, a second call returns the same file and runs
    no command, the first having run one at most. *)
Theorem List_cache `{Platform} `{JSONDecoder listResult.t} (mpath escMod : string)
    (Hesc : module_EscapePath mpath = Ok escMod) :
  (forall (w : State) (info : FileInfo),
     fs w !! listFile w escMod = Some info ->
     isDir info = false ->
     now w - modTime info < listExpire ->
     fst (List mpath w) = Val (Ok (RegularFile (listFile w escMod) (data info))) /\
     runs (trace (snd (List mpath w))) = runs (trace w)) /\
  (forall (w0 w1 w2 : State) (f1 : File),
     List mpath w0 = (Val (Ok f1), w1) ->
     downloadRoot w2 = downloadRoot w0 ->
     fs w2 !! listFile w0 escMod = fs w1 !! listFile w0 escMod ->
     (forall info, fs w1 !! listFile w0 escMod = Some info ->
                   now w2 - modTime info < listExpire) ->
     fst (List mpath w2) = Val (Ok f1) /\
     runs (trace (snd (List mpath w2))) = runs (trace w2) /\
     (length (runs (trace w1)) <= length (runs (trace w0)) + 1)%nat).
Proof.
  assert (Hhit : forall (w : State) (info : FileInfo),
    fs w !! listFile w escMod = Some info ->
    now w - modTime info < listExpire ->
    fst (List mpath w) =
      Val (Ok (if isDir info then Directory (listFile w escMod)
               else RegularFile (listFile w escMod) (data info))) /\
    runs (trace (snd (List mpath w))) = runs (trace w)).
  { intros w info Hfile Hage.
    rewrite (List_hit mpath escMod w Hesc).
    2:{ rewrite (isFresh_age _ _ _ Hfile). by apply Z.ltb_lt. }
    unfold os.Open. change (fs (emit _ w)) with (fs w). rewrite Hfile.
    split; [reflexivity|]. simpl. rewrite !runs_app. simpl. by rewrite !app_nil_r. }
  split.
  - intros w info Hfile Hreg Hage.
    destruct (Hhit w info Hfile Hage) as [Hres Hruns]. by rewrite Hreg in Hres.
  - intros w0 w1 w2 f1 Hfirst Hroot Hsame Hyoung.
    assert (Hcount : (length (runs (trace w1)) <= length (runs (trace w0)) + 1)%nat).
    { pose proof (List_runs_le mpath w0) as Hle. by rewrite Hfirst in Hle. }
    assert (Hfile2 : listFile w2 escMod = listFile w0 escMod).
    { unfold listFile. by rewrite Hroot. }
    assert (Hentry : exists info, fs w1 !! listFile w0 escMod = Some info /\
              f1 = if isDir info then Directory (listFile w0 escMod)
                   else RegularFile (listFile w0 escMod) (data info)).
    { rewrite List_unfold, Hesc in Hfirst. cbv zeta in Hfirst.
      assert (Hopen : forall w', os.Open (listFile w0 escMod) w' = (Val (Ok f1), w1) ->
                exists info, fs w1 !! listFile w0 escMod = Some info /\
                  f1 = if isDir info then Directory (listFile w0 escMod)
                       else RegularFile (listFile w0 escMod) (data info)).
      { intros w' Hopen. unfold os.Open in Hopen.
        injection Hopen as Hres <-. change (fs (emit _ w')) with (fs w').
        destruct (fs w' !! listFile w0 escMod) as [info|]; [|discriminate].
        injection Hres as <-. by exists info. }
      destruct (isFresh w0 (listFile w0 escMod)); [by eapply Hopen|].
      destruct (runErr _); [discriminate|].
      destruct (Unmarshal _ _) as [list [e|]]; [discriminate|].
      destruct (negb _); [discriminate|].
      destruct (ioutil.WriteFile _ _ _ _) as [[[e|]|msg] w4];
        [discriminate | by eapply Hopen | discriminate]. }
    destruct Hentry as (info & Hinfo & ->).
    rewrite Hinfo in Hsame. rewrite <- Hfile2 in Hsame.
    destruct (Hhit w2 info Hsame (Hyoung info Hinfo)) as [Hres Hruns].
    rewrite Hfile2 in Hres. done.
Qed.

(** C5: when [List] has to ask the go command and the answer names a path
    other than the one requested, [List] returns the error that names both
    paths, makes no directory and writes no file, and leaves the files as
    the go command left them. *)
Theorem List_path_mismatch `{Platform} `{JSONDecoder listResult.t}
    (mpath escMod : string) (w : State) (list : listResult.t)
    (Hesc : module_EscapePath mpath = Ok escMod)
    (Hstale : isFresh w (listFile w escMod) = false)
    (Hrun : runErr (listReply mpath w) = None)
    (Hdec : Unmarshal (stdout (listReply mpath w)) listResult.zero = (list, None))
    (Hpath : listResult.Path list <> mpath) :
  fst (List mpath w) =
    Val (Err ("go list -m: asked for " +:+ mpath +:+ " but got " +:+
              listResult.Path list)) /\
  writes (trace (snd (List mpath w))) = writes (trace w) /\
  mkdirs (trace (snd (List mpath w))) = mkdirs (trace w) /\
  fs (snd (List mpath w)) = snd (fst (exec_Run (listCommand mpath) (fs w) (now w))).
Proof.
  rewrite List_unfold, Hesc. cbv zeta. rewrite Hstale.
  fold (listReply mpath w). rewrite Hrun, Hdec.
  replace (String.eqb (listResult.Path list) mpath) with false
    by (symmetry; by apply String.eqb_neq).
  cbn [negb fst snd]. unfold afterRun. cbn [trace fs emit].
  rewrite !writes_app, !mkdirs_app. simpl. by rewrite !app_nil_r.
Qed.

Lemma List_path_mismatch_witness :
  fst (@List (Sample.platform (Sample.succeeded "<other/module>") time.Second)
         Sample.listDecoder "example/module" Sample.fresh) =
  Val (Err "go list -m: asked for example/module but got other/module") /\
  writes (trace (snd (@List (Sample.platform (Sample.succeeded "<other/module>") time.Second)
                        Sample.listDecoder "example/module" Sample.fresh))) = [].
Proof.
  destruct (@List_path_mismatch
              (Sample.platform (Sample.succeeded "<other/module>") time.Second)
              Sample.listDecoder "example/module" "example/module" Sample.fresh
              Sample.otherList) as (Hres & Hwrites & _ & _).
  - reflexivity.
  - vm_compute. reflexivity.
  - reflexivity.
  - vm_compute. reflexivity.
  - discriminate.
  - split; [exact Hres | exact Hwrites].
Defined.

Lemma List_cache_witness :
  fst (@List (Sample.platform (Sample.failed "" "go: not found") time.Second)
         Sample.listDecoder "example/module"
         (Sample.cached ("v1.0.0" +:+ nl) (2 * time.Minute))) =
  Val (Ok (RegularFile Sample.cacheFile ("v1.0.0" +:+ nl))) /\
  fst (@List (Sample.platform (Sample.succeeded "<example/module>") time.Second)
         Sample.listDecoder "example/module"
         (Sample.later time.Minute
            (snd (@List (Sample.platform (Sample.succeeded "<example/module>") time.Second)
                    Sample.listDecoder "example/module" Sample.fresh)))) =
  Val (Ok (RegularFile Sample.cacheFile ("v1.0.0" +:+ nl +:+ "v1.1.0" +:+ nl))).
Proof.
  split.
  - destruct (@List_cache (Sample.platform (Sample.failed "" "go: not found") time.Second)
                Sample.listDecoder "example/module" "example/module" eq_refl)
      as [Hhit _].
    destruct (Hhit (Sample.cached ("v1.0.0" +:+ nl) (2 * time.Minute))
                (Sample.file ("v1.0.0" +:+ nl) 0)) as [Hres _].
    + vm_compute. reflexivity.
    + reflexivity.
    + vm_compute. reflexivity.
    + exact Hres.
  - destruct (@List_cache (Sample.platform (Sample.succeeded "<example/module>") time.Second)
                Sample.listDecoder "example/module" "example/module" eq_refl)
      as [_ Htwice].
    destruct (Htwice Sample.fresh
                (snd (@List (Sample.platform (Sample.succeeded "<example/module>") time.Second)
                        Sample.listDecoder "example/module" Sample.fresh))
                (Sample.later time.Minute
                   (snd (@List (Sample.platform (Sample.succeeded "<example/module>")
                                  time.Second)
                           Sample.listDecoder "example/module" Sample.fresh)))
                (RegularFile Sample.cacheFile ("v1.0.0" +:+ nl +:+ "v1.1.0" +:+ nl)))
      as (Hres & _ & _).
    + vm_compute. reflexivity.
    + reflexivity.
    + reflexivity.
    + intros info Hinfo. vm_compute in Hinfo. injection Hinfo as <-.
      vm_compute. reflexivity.
    + exact Hres.
Defined.

(** C6: what [List] writes to the cache file is the version list joined by
    newlines and followed by a newline, ["v1.0.0\nv1.1.0\n"] for the two
    versions of the example; for the empty list it writes the empty string,
    not a single newline. *)
Theorem List_stores_versions `{Platform} `{JSONDecoder listResult.t}
    (mpath escMod : string) (w : State) (answer : listResult.t)
    (Hesc : module_EscapePath mpath = Ok escMod)
    (Hstale : isFresh w (listFile w escMod) = false)
    (Hrun : runErr (listReply mpath w) = None)
    (Hdec : Unmarshal (stdout (listReply mpath w)) listResult.zero = (answer, None))
    (Hpath : listResult.Path answer = mpath) :
  writes (trace (snd (List mpath w))) =
    writes (trace w) ++ [(listFile w escMod, listData (listResult.Versions answer))] /\
  (forall (v : string) (versions : list string),
     listResult.Versions answer = v :: versions -> v <> "" \/ versions <> [] ->
     listData (listResult.Versions answer) = strings.Join (v :: versions) nl +:+ nl) /\
  (listResult.Versions answer = ["v1.0.0"; "v1.1.0"] ->
   listData (listResult.Versions answer) = "v1.0.0" +:+ nl +:+ "v1.1.0" +:+ nl) /\
  (listResult.Versions answer = [] ->
   listData (listResult.Versions answer) = "" /\ listData (listResult.Versions answer) <> nl).
Proof.
  split; [|split; [|split]].
  - destruct (List_refresh mpath escMod w answer Hesc Hstale Hrun Hdec Hpath)
      as (werr & w4 & _ & Htrace & _ & _ & ->).
    assert (Hw4 : writes (trace w4) =
              writes (trace w) ++
              [(listFile w escMod, listData (listResult.Versions answer))]).
    { rewrite Htrace, writes_app. reflexivity. }
    destruct werr as [e|]; [exact Hw4|].
    simpl. rewrite writes_app, Hw4. simpl. by rewrite app_nil_r.
  - intros v versions -> Hv. by apply listData_nonempty.
  - intros ->. reflexivity.
  - intros ->. split; [reflexivity | discriminate].
Qed.

Lemma List_stores_versions_witness :
  writes (trace (snd (@List (Sample.platform (Sample.succeeded "<example/module>") time.Second)
                        Sample.listDecoder "example/module" Sample.fresh))) =
  [(Sample.cacheFile, "v1.0.0" +:+ nl +:+ "v1.1.0" +:+ nl)].
Proof.
  destruct (@List_stores_versions
              (Sample.platform (Sample.succeeded "<example/module>") time.Second)
              Sample.listDecoder "example/module" "example/module" Sample.fresh
              Sample.exampleList) as (Hwrites & _).
  - reflexivity.
  - vm_compute. reflexivity.
  - reflexivity.
  - vm_compute. reflexivity.
  - reflexivity.
  - exact Hwrites.
Defined.

(** C9: the permission [List] passes when it creates the directory of the
    cache file is the decimal number 755, which is 1363 in octal, and not
    the octal 755 of a directory that its owner may read, write and search
    and the others read and search. *)
Theorem List_mkdir_permission `{Platform} `{JSONDecoder listResult.t}
    (mpath escMod : string) (w : State) (list : listResult.t)
    (Hesc : module_EscapePath mpath = Ok escMod)
    (Hstale : isFresh w (listFile w escMod) = false)
    (Hrun : runErr (listReply mpath w) = None)
    (Hdec : Unmarshal (stdout (listReply mpath w)) listResult.zero = (list, None))
    (Hpath : listResult.Path list = mpath) :
  mkdirs (trace (snd (List mpath w))) =
    mkdirs (trace w) ++ [(path_Dir (listFile w escMod), 755)] /\
  755 = octal [1; 3; 6; 3] /\
  755 <> octal [7; 5; 5] /\
  os.Perm 755 = octal [3; 6; 3].
Proof.
  split; [|split; [reflexivity | split; [discriminate | reflexivity]]].
  destruct (List_refresh mpath escMod w list Hesc Hstale Hrun Hdec Hpath)
    as (werr & w4 & _ & Htrace & _ & _ & ->).
  assert (Hw4 : mkdirs (trace w4) =
            mkdirs (trace w) ++ [(path_Dir (listFile w escMod), 755)]).
  { rewrite Htrace, mkdirs_app. reflexivity. }
  destruct werr as [e|]; [exact Hw4|].
  simpl. rewrite mkdirs_app, Hw4. simpl. by rewrite app_nil_r.
Qed.

Lemma List_mkdir_permission_witness :
  mkdirs (trace (snd (@List (Sample.platform (Sample.succeeded "<example/module>") time.Second)
                        Sample.listDecoder "example/module" Sample.fresh))) =
  [("/go/pkg/mod/cache/download/example/module/@v", 755)].
Proof.
  destruct (@List_mkdir_permission
              (Sample.platform (Sample.succeeded "<example/module>") time.Second)
              Sample.listDecoder "example/module" "example/module" Sample.fresh
              Sample.exampleList) as (Hmkdirs & _).
  - reflexivity.
  - vm_compute. reflexivity.
  - reflexivity.
  - vm_compute. reflexivity.
  - reflexivity.
  - exact Hmkdirs.
Defined.

(** ** The resolution delegate *)

Section Delegate.
Context `{Platform} `{JSONDecoder downloadInfo.t}.

(** [download] is the helper on its command. *)
Lemma download_state (m : module.Version.t) (w : State) :
  snd (download m w) = afterRun (downloadCommand m) w.
Proof. unfold download. by apply goJSON_state. Qed.

(** [Info], one decision after the other. *)
Lemma Info_unfold (m : module.Version.t) (w : State) :
  Info m w =
  match fst (download m w) with
  | Val (_, Some e) => (Val (Err e), afterRun (downloadCommand m) w)
  | Val (d, None) => os.Open (downloadInfo.Info d) (afterRun (downloadCommand m) w)
  | Panic msg => (Panic msg, afterRun (downloadCommand m) w)
  end.
Proof.
  unfold Info, mbind, M_bind. rewrite <- download_state.
  destruct (download m w) as [[[d [e|]]|msg] w']; reflexivity.
Qed.

End Delegate.

(** C10: [Latest] of a path is [Info] of the coordinate made of that path
    and the version [latest]: the two are the same computation; each runs
    once the command [go mod download -json path@latest] and nothing else,
    and when the command has answered with a record, each opens the file
    that the record names as its [Info]. *)
Theorem Latest_is_Info_latest `{Platform} `{JSONDecoder downloadInfo.t}
    (path : string) (w : State) :
  let m := {| module.Version.Path := path; module.Version.Version := "latest" |} in
  let command := ["go"; "mod"; "download"; "-json"; path +:+ "@latest"] in
  Latest path w = Info m w /\
  runs (trace (snd (Latest path w))) = runs (trace w) ++ [command] /\
  runs (trace (snd (Info m w))) = runs (trace w) ++ [command] /\
  (forall d : downloadInfo.t,
     fst (goJSON downloadInfo.new command w) = Val (d, None) ->
     Latest path w = os.Open (downloadInfo.Info d) (afterRun command w) /\
     Info m w = os.Open (downloadInfo.Info d) (afterRun command w)).
Proof.
  intros m command.
  assert (Hsame : Latest path w = Info m w) by reflexivity.
  assert (Hruns : runs (trace (snd (Info m w))) = runs (trace w) ++ [command]).
  { rewrite Info_unfold.
    change (downloadCommand m) with command.
    destruct (fst (download m w)) as [[d [e|]]|msg]; simpl;
      rewrite !runs_app; simpl; by rewrite ?app_nil_r. }
  assert (Hopen : forall d : downloadInfo.t,
            fst (goJSON downloadInfo.new command w) = Val (d, None) ->
            Info m w = os.Open (downloadInfo.Info d) (afterRun command w)).
  { intros d Hd. rewrite Info_unfold. unfold download.
    change (module.Version.String m) with (path +:+ "@latest").
    fold command. by rewrite Hd. }
  split; [exact Hsame|]. split; [by rewrite Hsame|]. split; [exact Hruns|].
  intros d Hd. split; [rewrite Hsame|]; by apply Hopen.
Qed.

Lemma Latest_is_Info_latest_witness :
  @Latest (Sample.platform (Sample.succeeded "<example/module@v1.1.0>") time.Second)
    Sample.downloadDecoder "example/module" Sample.fresh =
  os.Open "/go/pkg/mod/cache/download/example/module/@v/v1.1.0.info"
    (afterRun (H := Sample.platform (Sample.succeeded "<example/module@v1.1.0>") time.Second)
       ["go"; "mod"; "download"; "-json"; "example/module@latest"] Sample.fresh).
Proof.
  destruct (@Latest_is_Info_latest
              (Sample.platform (Sample.succeeded "<example/module@v1.1.0>") time.Second)
              Sample.downloadDecoder "example/module" Sample.fresh)
    as (_ & _ & _ & Hopen).
  destruct (Hopen Sample.exampleDownload) as [Hlatest _]; [reflexivity|].
  exact Hlatest.
Defined.

(** ** The program on the small machine *)

Example Split_lines :
  strings.Split ("example/.*" +:+ nl +:+ "internal/.*" +:+ nl) newline =
  ["example/.*"; "internal/.*"; ""] /\
  strings.Split "" newline = [""].
Proof. split; reflexivity. Qed.

Example Compile_empty_line :
  regexp.Compile "^$" =
  Ok (regexp.Concat regexp.BeginText (regexp.Concat regexp.EndText regexp.EmptyMatch)).
Proof. reflexivity. Qed.

Example MatchString_anchored :
  MatchString (Sample.rule "github\.com/acme/.*") "github.com/acme/tool" = true /\
  MatchString (Sample.rule "github\.com/acme/.*") "github.com/other/tool" = false /\
  MatchString (Sample.rule "github\.com/acme/.*") "mirror/github.com/acme/tool" = false.
Proof. repeat split; vm_compute; reflexivity. Qed.

(** A line with an alternation is anchored branch by branch. *)
Example MatchString_alternation :
  MatchString (Sample.rule "acme|example") "acme" = true /\
  MatchString (Sample.rule "acme|example") "acme/tool" = true /\
  MatchString (Sample.rule "acme|example") "my/example" = true.
Proof. repeat split; vm_compute; reflexivity. Qed.

Example Compile_errors :
  regexp.Compile "^*$" = Ok (regexp.Concat (regexp.Star regexp.BeginText)
                               (regexp.Concat regexp.EndText regexp.EmptyMatch)) /\
  regexp.Compile "^a**$" = Err "error parsing regexp: ^a**$" /\
  regexp.Compile "^(a$" = Err "error parsing regexp: ^(a$".
Proof. repeat split; reflexivity. Qed.

Example listExpire_nanoseconds : listExpire = 300000000000.
Proof. reflexivity. Qed.

(** With an allow list in place the deny rule is honoured. *)
Example Filter_deny_with_allow_list :
  Filter {| whiteList := [Sample.rule ".*"]; blackList := [Sample.rule "internal/.*"] |}
    "internal/secret" = false.
Proof. vm_compute. reflexivity. Qed.

(** A first call on the empty machine: the whole trace, and the entry it
    leaves, stamped with the time at which the go command returned. *)
Example List_first_call :
  let w := snd (@List (Sample.platform (Sample.succeeded "<example/module>") time.Second)
                  Sample.listDecoder "example/module" Sample.fresh) in
  trace w =
    [EvStat Sample.cacheFile;
     EvRun ["go"; "list"; "-m"; "-json"; "-versions"; "example/module@latest"];
     EvMkdirAll "/go/pkg/mod/cache/download/example/module/@v" 755;
     EvWriteFile Sample.cacheFile ("v1.0.0" +:+ nl +:+ "v1.1.0" +:+ nl) 438;
     EvOpen Sample.cacheFile] /\
  fs w !! Sample.cacheFile =
    Some {| isDir := false; data := "v1.0.0" +:+ nl +:+ "v1.1.0" +:+ nl;
            modTime := time.Minute + time.Second; mode := octal [6; 6; 6] |} /\
  (mode <$> fs w !! "/go/pkg/mod/cache/download/example/module/@v") = Some (octal [3; 6; 3]).
Proof. repeat split; vm_compute; reflexivity. Qed.

(** After the window the go command is asked again. *)
Example List_after_expiry :
  runs (trace (snd (@List (Sample.platform (Sample.succeeded "<example/module>") time.Second)
                      Sample.listDecoder "example/module"
                      (Sample.cached ("v1.0.0" +:+ nl) listExpire)))) =
  [["go"; "list"; "-m"; "-json"; "-versions"; "example/module@latest"]].
Proof. vm_compute. reflexivity. Qed.

(** A module path that does not escape is refused before anything is
    looked at. *)
Example List_malformed_path :
  @List (Sample.platform (Sample.succeeded "<example/module>") time.Second)
    Sample.listDecoder "" Sample.fresh =
  (Val (Err "malformed module path: empty string"), Sample.fresh).
Proof. reflexivity. Qed.

(** The helper without a command panics on [command[0]]. *)
Example goJSON_no_command :
  fst (@goJSON (Sample.platform (Sample.succeeded "") time.Second) _
         Sample.listDecoder listResult.zero [] Sample.fresh) =
  Panic "runtime error: index out of range [0] with length 0".
Proof. reflexivity. Qed.

(** * Further properties *)

(** ** The filter as a whole *)

(** X1: [Filter] accepts a path exactly when there is no allow list, or no
    deny rule matches the path and some allow rule does. *)
Theorem Filter_accepts_iff {R : Type} `{RegexpEngine R} (o : ops R) (path : string) :
  Filter o path = true <->
  whiteList o = [] \/
  ((forall r, r ∈ blackList o -> MatchString r path = false) /\
   exists r, r ∈ whiteList o /\ MatchString r path = true).
Proof.
  destruct (whiteList o) as [|a rules] eqn:Hl.
  - rewrite Filter_no_allow by done. split; [by left | done].
  - rewrite Filter_with_allow by congruence.
    rewrite andb_true_iff, negb_true_iff.
    unfold isBlacklisted, isWhitelisted. rewrite anyMatch_false, anyMatch_true, Hl.
    split; [by right | by intros [? | ?]].
Qed.

Lemma anyMatch_same_rules {R : Type} `{RegexpEngine R} (rules1 rules2 : list R)
    (path : string) :
  (forall r, r ∈ rules1 <-> r ∈ rules2) ->
  anyMatch rules1 path = anyMatch rules2 path.
Proof.
  intros Hsame. destruct (anyMatch rules2 path) eqn:H2.
  - apply anyMatch_true in H2 as (r & Hr & Hm). apply anyMatch_true.
    exists r. split; [by apply Hsame | done].
  - apply anyMatch_false. intros r Hr.
    rewrite anyMatch_false in H2. apply H2. by apply Hsame.
Qed.

(** X2: the order of the rules and their repetition do not matter: two
    configurations with the same allow rules and the same deny rules
    filter alike. *)
Theorem Filter_same_rules {R : Type} `{RegexpEngine R} (o1 o2 : ops R) (path : string)
    (Hallow : forall r, r ∈ whiteList o1 <-> r ∈ whiteList o2)
    (Hdeny : forall r, r ∈ blackList o1 <-> r ∈ blackList o2) :
  Filter o1 path = Filter o2 path.
Proof.
  destruct (whiteList o1) as [|a rules] eqn:Hl1.
  - assert (Hl2 : whiteList o2 = []).
    { apply elem_of_nil_inv. intros r Hr. apply Hallow in Hr. by apply elem_of_nil in Hr. }
    by rewrite !Filter_no_allow.
  - assert (Hl2 : whiteList o2 <> []).
    { intros Hl2. assert (Ha : a ∈ whiteList o2) by (apply Hallow; apply elem_of_cons; by left).
      rewrite Hl2 in Ha. by apply elem_of_nil in Ha. }
    rewrite !Filter_with_allow by congruence.
    unfold isBlacklisted, isWhitelisted.
    rewrite (anyMatch_same_rules _ _ path Hdeny).
    rewrite Hl1, (anyMatch_same_rules _ _ path Hallow). reflexivity.
Qed.

Lemma Filter_same_rules_witness :
  Filter {| whiteList := [Sample.rule "example/.*"; Sample.rule "acme/.*"];
            blackList := [Sample.rule "example/internal/.*"] |} "example/internal/x" =
  Filter {| whiteList := [Sample.rule "acme/.*"; Sample.rule "example/.*";
                          Sample.rule "acme/.*"];
            blackList := [Sample.rule "example/internal/.*"] |} "example/internal/x".
Proof.
  apply Filter_same_rules; cbn [whiteList blackList]; intros r.
  - rewrite !elem_of_cons, !elem_of_nil. tauto.
  - reflexivity.
Defined.

Lemma anyMatch_app {R : Type} `{RegexpEngine R} (rules1 rules2 : list R) (path : string) :
  anyMatch (rules1 ++ rules2) path = anyMatch rules1 path || anyMatch rules2 path.
Proof.
  induction rules1 as [|r rules1 IH]; [reflexivity|].
  simpl. destruct (MatchString r path); [reflexivity | exact IH].
Qed.

(** X3: more deny rules never let more paths through, and adding rules to
    an allow list that is not empty never shuts a path out. *)
Theorem Filter_monotone {R : Type} `{RegexpEngine R} (allow deny more : list R)
    (path : string) :
  (Filter {| whiteList := allow; blackList := deny ++ more |} path = true ->
   Filter {| whiteList := allow; blackList := deny |} path = true) /\
  (allow <> [] ->
   Filter {| whiteList := allow; blackList := deny |} path = true ->
   Filter {| whiteList := allow ++ more; blackList := deny |} path = true).
Proof.
  split.
  - destruct allow as [|a allow]; [done|].
    rewrite !Filter_with_allow by done.
    unfold isBlacklisted, isWhitelisted. cbn [whiteList blackList].
    rewrite anyMatch_app.
    destruct (anyMatch deny path), (anyMatch more path), (anyMatch (a :: allow) path);
      done.
  - intros Hallow. rewrite !Filter_with_allow.
    + unfold isBlacklisted, isWhitelisted. cbn [whiteList blackList].
      rewrite anyMatch_app. intros [-> ->]%andb_true_iff. reflexivity.
    + cbn [whiteList]. destruct allow; [done | discriminate].
    + done.
Qed.

Lemma Filter_monotone_witness :
  Filter {| whiteList := [Sample.rule "example/.*"; Sample.rule "acme/.*"];
            blackList := [Sample.rule "internal/.*"] |} "example/module" = true.
Proof.
  apply (proj2 (Filter_monotone [Sample.rule "example/.*"] [Sample.rule "internal/.*"]
                  [Sample.rule "acme/.*"] "example/module")).
  - discriminate.
  - vm_compute. reflexivity.
Defined.

(** ** Rule files *)

Lemma append_assoc (a b c : string) : (a +:+ b) +:+ c = a +:+ (b +:+ c).
Proof.
  induction a as [|x a IH]; [reflexivity|].
  change (String x ((a +:+ b) +:+ c) = String x (a +:+ (b +:+ c))).
  by rewrite IH.
Qed.

Lemma append_empty_r (a : string) : a +:+ "" = a.
Proof.
  induction a as [|x a IH]; [reflexivity|].
  change (String x (a +:+ "") = String x a). by rewrite IH.
Qed.

Lemma Split_no_sep (s : string) (sep : ascii) :
  containsByte s sep = false -> strings.Split s sep = [s].
Proof.
  induction s as [|c s IH]; [reflexivity|].
  simpl. intros [Hc Hs]%orb_false_iff. rewrite Hc, (IH Hs). reflexivity.
Qed.

Lemma Split_append (s t : string) (sep : ascii) :
  containsByte s sep = false ->
  strings.Split (s +:+ String sep t) sep = s :: strings.Split t sep.
Proof.
  induction s as [|c s IH]; intros Hs.
  - change ("" +:+ String sep t) with (String sep t). simpl.
    by rewrite Ascii.eqb_refl.
  - simpl in Hs. apply orb_false_iff in Hs as [Hc Hs].
    change (String c s +:+ String sep t) with (String c (s +:+ String sep t)).
    simpl. rewrite Hc, (IH Hs). reflexivity.
Qed.

(** Splitting undoes joining, for pieces that do not hold the separator. *)
Lemma Split_Join (pieces : list string) (sep : ascii) :
  pieces <> [] ->
  Forall (fun piece => containsByte piece sep = false) pieces ->
  strings.Split (strings.Join pieces (String sep "")) sep = pieces.
Proof.
  intros Hne Hall. induction Hall as [|piece pieces Hpiece Hall IH]; [done|].
  destruct pieces as [|piece' pieces].
  - simpl. by apply Split_no_sep.
  - change (strings.Join (piece :: piece' :: pieces) (String sep ""))
      with (piece +:+ String sep "" +:+ strings.Join (piece' :: pieces) (String sep "")).
    change (String sep "" +:+ strings.Join (piece' :: pieces) (String sep ""))
      with (String sep (strings.Join (piece' :: pieces) (String sep ""))).
    rewrite Split_append by done. rewrite IH by done. reflexivity.
Qed.

Lemma Join_snoc_empty (pieces : list string) (sep : string) :
  pieces <> [] ->
  strings.Join (pieces ++ [""]) sep = strings.Join pieces sep +:+ sep.
Proof.
  intros Hne. induction pieces as [|piece pieces IH]; [done|].
  destruct pieces as [|piece' pieces].
  - change (piece +:+ sep +:+ "" = piece +:+ sep). by rewrite append_empty_r.
  - change (strings.Join ((piece :: piece' :: pieces) ++ [""]) sep)
      with (piece +:+ sep +:+ strings.Join ((piece' :: pieces) ++ [""]) sep).
    rewrite IH by done.
    change (strings.Join (piece :: piece' :: pieces) sep)
      with (piece +:+ sep +:+ strings.Join (piece' :: pieces) sep).
    by rewrite !append_assoc.
Qed.

Section RuleFiles.
Context {R : Type} `{RegexpEngine R}.

Lemma compileRules_Forall2 (lines : list string) (acc rules : list R) :
  compileRules lines acc = Ok rules ->
  exists compiled, rules = acc ++ compiled /\
    Forall2 (fun line r => Compile ("^" +:+ line +:+ "$") = Ok r) lines compiled.
Proof.
  revert acc. induction lines as [|l lines IH]; intros acc; simpl.
  - intros [= <-]. exists []. split; [by rewrite app_nil_r | constructor].
  - destruct (Compile ("^" +:+ l +:+ "$")) as [r|e] eqn:Hc; [|discriminate].
    intros Hrest. destruct (IH _ Hrest) as (compiled & -> & Hall).
    exists (r :: compiled). split; [by rewrite <- app_assoc | by constructor].
Qed.

Lemma compileRules_first_error (good rest : list string) (bad : string) (e : error)
    (acc : list R) :
  Forall (fun line => exists r, Compile ("^" +:+ line +:+ "$") = Ok r) good ->
  Compile ("^" +:+ bad +:+ "$") = Err e ->
  compileRules (good ++ bad :: rest) acc = Err e.
Proof.
  intros Hgood Hbad. revert acc.
  induction Hgood as [|l good [r Hr] _ IH]; intros acc; simpl.
  - by rewrite Hbad.
  - rewrite Hr. apply IH.
Qed.

Lemma loadRules_unfold (file : string) (w : State) :
  file <> "" ->
  loadRules file w =
  (Val match fs w !! file with
       | Some info =>
           if isDir info then Err ("read " +:+ file +:+ ": is a directory")
           else compileRules (strings.Split (data info) newline) []
       | None => Err ("open " +:+ file +:+ ": no such file or directory")
       end,
   emit (EvReadFile file) w).
Proof.
  intros Hfile. unfold loadRules.
  destruct (String.eqb file "") eqn:He; [by apply String.eqb_eq in He|].
  unfold mbind, M_bind, ioutil.ReadFile, mret, M_ret. simpl.
  destruct (fs w !! file) as [info|]; [|reflexivity].
  destruct (isDir info); reflexivity.
Qed.

End RuleFiles.

(** X4: a rule file that loads gives one rule for each of the pieces that
    its newlines separate, in their order, each the compiled form of its
    piece between [^] and [$]; the file is a regular file. *)
Theorem loadRules_rule_per_line {R : Type} `{RegexpEngine R}
    (file : string) (w : State) (rules : list R)
    (Hfile : file <> "")
    (Hload : fst (loadRules file w) = Val (Ok rules)) :
  exists info : FileInfo,
    fs w !! file = Some info /\ isDir info = false /\
    Forall2 (fun line r => Compile ("^" +:+ line +:+ "$") = Ok r)
      (strings.Split (data info) newline) rules.
Proof.
  rewrite loadRules_unfold in Hload by done. cbn [fst] in Hload.
  destruct (fs w !! file) as [info|]; [|discriminate].
  destruct (isDir info) eqn:Hdir; [discriminate|].
  injection Hload as Hload.
  apply compileRules_Forall2 in Hload as (compiled & -> & Hall).
  exists info. done.
Qed.

Lemma loadRules_rule_per_line_witness :
  exists info : FileInfo,
    fs (Sample.withRules ("example/.*" +:+ nl +:+ "acme/.*")) !! "rules" = Some info /\
    isDir info = false /\
    Forall2 (fun line r => Compile ("^" +:+ line +:+ "$") = Ok r)
      (strings.Split (data info) newline)
      [Sample.rule "example/.*"; Sample.rule "acme/.*"].
Proof.
  apply (loadRules_rule_per_line "rules"
           (Sample.withRules ("example/.*" +:+ nl +:+ "acme/.*"))
           [Sample.rule "example/.*"; Sample.rule "acme/.*"]).
  - discriminate.
  - vm_compute. reflexivity.
Defined.

(** X5: loading is all or nothing: when the pieces before a piece compile
    and that piece does not, [loadRules] returns the error of that piece
    and no rules. *)
Theorem loadRules_first_bad_line {R : Type} `{RegexpEngine R}
    (file : string) (w : State) (info : FileInfo)
    (good rest : list string) (bad : string) (e : error)
    (Hfile : file <> "")
    (Hinfo : fs w !! file = Some info)
    (Hreg : isDir info = false)
    (Hlines : strings.Split (data info) newline = good ++ bad :: rest)
    (Hgood : Forall (fun line => exists r, Compile ("^" +:+ line +:+ "$") = Ok r) good)
    (Hbad : Compile ("^" +:+ bad +:+ "$") = Err e) :
  fst (loadRules file w) = Val (Err e).
Proof.
  rewrite loadRules_unfold by done. cbn [fst]. rewrite Hinfo, Hreg, Hlines.
  by rewrite (compileRules_first_error good rest bad e).
Qed.

Lemma loadRules_first_bad_line_witness :
  fst (loadRules (R := regexp.Regexp) "rules"
         (Sample.withRules ("example/.*" +:+ nl +:+ "(acme" +:+ nl +:+ "other/.*"))) =
  Val (Err "error parsing regexp: ^(acme$").
Proof.
  apply (loadRules_first_bad_line "rules"
           (Sample.withRules ("example/.*" +:+ nl +:+ "(acme" +:+ nl +:+ "other/.*"))
           (Sample.file ("example/.*" +:+ nl +:+ "(acme" +:+ nl +:+ "other/.*") 0)
           ["example/.*"] ["other/.*"] "(acme").
  - discriminate.
  - vm_compute. reflexivity.
  - reflexivity.
  - reflexivity.
  - constructor; [|constructor]. eexists. vm_compute. reflexivity.
  - reflexivity.
Defined.

(** X6: a rule file made of lines joined by newlines, none of them holding
    a newline and the last not followed by one, loads as the rules of
    exactly these lines. *)
Theorem loadRules_joined_lines {R : Type} `{RegexpEngine R}
    (file : string) (w : State) (info : FileInfo) (lines : list string)
    (Hfile : file <> "")
    (Hinfo : fs w !! file = Some info)
    (Hreg : isDir info = false)
    (Hne : lines <> [])
    (Hlines : Forall (fun line => containsByte line newline = false) lines)
    (Hdata : data info = strings.Join lines nl) :
  fst (loadRules file w) = Val (compileRules lines []).
Proof.
  rewrite loadRules_unfold by done. cbn [fst]. rewrite Hinfo, Hreg, Hdata.
  unfold nl. by rewrite Split_Join.
Qed.

Lemma loadRules_joined_lines_witness :
  fst (loadRules (R := regexp.Regexp) "rules"
         (Sample.withRules ("example/.*" +:+ nl +:+ "acme/.*"))) =
  Val (Ok [Sample.rule "example/.*"; Sample.rule "acme/.*"]).
Proof.
  change (Ok [Sample.rule "example/.*"; Sample.rule "acme/.*"])
    with (compileRules (R := regexp.Regexp) ["example/.*"; "acme/.*"] []).
  apply (loadRules_joined_lines "rules"
           (Sample.withRules ("example/.*" +:+ nl +:+ "acme/.*"))
           (Sample.file ("example/.*" +:+ nl +:+ "acme/.*") 0)
           ["example/.*"; "acme/.*"]).
  - discriminate.
  - vm_compute. reflexivity.
  - reflexivity.
  - discriminate.
  - repeat constructor.
  - reflexivity.
Defined.

(** X7: the bytes stored for a version list split at the newlines into the
    versions followed by one empty piece, when the list is not empty, is
    not the single empty version, and no version holds a newline. *)
Theorem listData_Split (v : string) (versions : list string)
    (Hversion : v <> "" \/ versions <> [])
    (Hlines : Forall (fun line => containsByte line newline = false) (v :: versions)) :
  strings.Split (listData (v :: versions)) newline = (v :: versions) ++ [""].
Proof.
  rewrite listData_nonempty by done.
  rewrite <- Join_snoc_empty by done.
  unfold nl. apply Split_Join.
  - discriminate.
  - apply Forall_app. split; [done | by constructor].
Qed.

Lemma listData_Split_witness :
  strings.Split (listData ["v1.0.0"; "v1.1.0"]) newline = ["v1.0.0"; "v1.1.0"; ""].
Proof.
  apply (listData_Split "v1.0.0" ["v1.1.0"]).
  - left. discriminate.
  - repeat constructor.
Defined.

(** ** The helper and the cache, beyond the claims *)

Lemma goJSON_returns `{Platform} {A : Type} `{JSONDecoder A}
    (dst : A) (command : list string) (w : State) :
  command <> [] -> exists r, fst (goJSON dst command w) = Val r.
Proof.
  intros Hcmd. destruct command as [|name args]; [done|].
  unfold goJSON, mbind, M_bind, exec.Run.
  destruct (exec_Run (name :: args) (fs w) (now w)) as [[p files] clock].
  destruct (runErr p); [by eexists|].
  destruct (Unmarshal (stdout p) dst) as [dst' [e|]]; by eexists.
Qed.



Section CacheMore.
Context `{Platform} `{JSONDecoder listResult.t}.

Lemma isFresh_iff (w : State) (file : string) :
  isFresh w file = true <->
  exists info, fs w !! file = Some info /\ now w - modTime info < listExpire.
Proof.
  unfold isFresh. destruct (fs w !! file) as [info|] eqn:Hfile.
  - rewrite Sub_lt_listExpire, Z.ltb_lt. split.
    + intros Hage. by exists info.
    + by intros (info' & [= <-] & Hage).
  - split; [discriminate | by intros (info' & [=] & _)].
Qed.

(** The value and the state of the helper depend on the files and the
    clock alone. *)
Lemma goJSON_emit {A : Type} `{JSONDecoder A} (dst : A) (command : list string)
    (e : Event) (w : State) :
  fst (goJSON dst command (emit e w)) = fst (goJSON dst command w).
Proof.
  destruct command as [|name args]; [reflexivity|].
  unfold goJSON, mbind, M_bind, exec.Run.
  change (fs (emit e w)) with (fs w). change (now (emit e w)) with (now w).
  destruct (exec_Run (name :: args) (fs w) (now w)) as [[p files] clock].
  destruct (runErr p); [reflexivity|].
  destruct (Unmarshal (stdout p) dst) as [dst' [e'|]]; reflexivity.
Qed.

Lemma goJSON_value {A : Type} `{JSONDecoder A} (dst : A) (command : list string)
    (w : State) :
  command <> [] ->
  fst (goJSON dst command w) =
  Val (let p := fst (fst (exec_Run command (fs w) (now w))) in
       match runErr p with
       | Some _ =>
           (dst, Some (strings.Join command " " +:+ ":" +:+ nl +:+
                       stderr p +:+ stdout p))
       | None =>
           match Unmarshal (stdout p) dst with
           | (dst', Some e) =>
               (dst', Some (strings.Join command " " +:+ ": reading json: " +:+ e))
           | (dst', None) => (dst', None)
           end
       end).
Proof.
  intros Hcmd. destruct command as [|name args]; [done|].
  unfold goJSON, mbind, M_bind, exec.Run.
  destruct (exec_Run (name :: args) (fs w) (now w)) as [[p files] clock].
  cbv zeta. cbn [fst].
  destruct (runErr p); [reflexivity|].
  destruct (Unmarshal (stdout p) dst) as [dst' [e|]]; reflexivity.
Qed.




(** The files on which [List] works when the entry is stale: those the go
    command left. *)
Lemma afterRun_fs (command : list string) (w : State) :
  fs (afterRun command w) = snd (fst (exec_Run command (fs w) (now w))).
Proof. reflexivity. Qed.

End CacheMore.

Section CacheRuns.
Context `{Platform} `{JSONDecoder listResult.t}.

Lemma List_stale_runs (mpath escMod : string) (w : State) :
  module_EscapePath mpath = Ok escMod ->
  isFresh w (listFile w escMod) = false ->
  runs (trace (snd (List mpath w))) = runs (trace w) ++ [listCommand mpath].
Proof.
  intros Hesc Hstale. rewrite List_unfold, Hesc. cbv zeta. rewrite Hstale.
  set (file := listFile w escMod).
  assert (Hrun : runs (trace (afterRun (listCommand mpath) (emit (EvStat file) w))) =
                 runs (trace w) ++ [listCommand mpath]).
  { simpl. rewrite !runs_app. simpl. by rewrite app_nil_r. }
  destruct (runErr _); [exact Hrun|].
  destruct (Unmarshal _ _) as [answer [e|]]; [exact Hrun|].
  destruct (negb _); [exact Hrun|].
  cbv zeta.
  destruct (WriteFile_returns file (listData (listResult.Versions answer)) 438
              (snd (os.MkdirAll (path_Dir file) 755
                      (afterRun (listCommand mpath) (emit (EvStat file) w)))))
    as (werr & w4 & -> & Htrace & _ & _).
  assert (Hw4 : runs (trace w4) = runs (trace w) ++ [listCommand mpath]).
  { rewrite Htrace, MkdirAll_trace, !runs_app, Hrun. simpl. by rewrite !app_nil_r. }
  destruct werr as [e|]; [exact Hw4|].
  simpl. rewrite runs_app, Hw4. simpl. by rewrite app_nil_r.
Qed.

Lemma List_fresh_runs (mpath escMod : string) (w : State) :
  module_EscapePath mpath = Ok escMod ->
  isFresh w (listFile w escMod) = true ->
  runs (trace (snd (List mpath w))) = runs (trace w).
Proof.
  intros Hesc Hfresh. rewrite (List_hit mpath escMod w Hesc Hfresh).
  simpl. rewrite !runs_app. simpl. by rewrite !app_nil_r.
Qed.

End CacheRuns.

(** X9: [List] asks the go command exactly when the cache file is missing
    or at least five minutes old, and then asks it once, with
    [go list -m -json -versions path@latest]; an entry that is younger,
    were it stamped in the future, keeps the go command out. *)
Theorem List_asks_go_iff_stale `{Platform} `{JSONDecoder listResult.t}
    (mpath escMod : string) (w : State)
    (Hesc : module_EscapePath mpath = Ok escMod) :
  ((exists info, fs w !! listFile w escMod = Some info /\
                 now w - modTime info < listExpire) ->
   runs (trace (snd (List mpath w))) = runs (trace w)) /\
  (~ (exists info, fs w !! listFile w escMod = Some info /\
                   now w - modTime info < listExpire) ->
   runs (trace (snd (List mpath w))) =
   runs (trace w) ++ [["go"; "list"; "-m"; "-json"; "-versions"; mpath +:+ "@latest"]]).
Proof.
  split.
  - intros Hyoung. apply (List_fresh_runs mpath escMod w Hesc).
    by apply isFresh_iff.
  - intros Hold. apply (List_stale_runs mpath escMod w Hesc).
    destruct (isFresh w (listFile w escMod)) eqn:Hfresh; [|done].
    by apply isFresh_iff in Hfresh.
Qed.

Lemma List_asks_go_iff_stale_witness :
  runs (trace (snd (@List (Sample.platform (Sample.succeeded "<example/module>") time.Second)
                      Sample.listDecoder "example/module"
                      (Sample.cachedAhead ("v1.0.0" +:+ nl))))) = [] /\
  runs (trace (snd (@List (Sample.platform (Sample.succeeded "<example/module>") time.Second)
                      Sample.listDecoder "example/module"
                      (Sample.cached ("v1.0.0" +:+ nl) listExpire)))) =
  [["go"; "list"; "-m"; "-json"; "-versions"; "example/module@latest"]].
Proof.
  split.
  - apply (@List_asks_go_iff_stale
             (Sample.platform (Sample.succeeded "<example/module>") time.Second)
             Sample.listDecoder "example/module" "example/module"
             (Sample.cachedAhead ("v1.0.0" +:+ nl)) eq_refl).
    exists (Sample.file ("v1.0.0" +:+ nl) (60 * time.Minute)).
    split; vm_compute; reflexivity.
  - apply (@List_asks_go_iff_stale
             (Sample.platform (Sample.succeeded "<example/module>") time.Second)
             Sample.listDecoder "example/module" "example/module"
             (Sample.cached ("v1.0.0" +:+ nl) listExpire) eq_refl).
    intros (info & Hinfo & Hage). vm_compute in Hinfo. injection Hinfo as <-.
    vm_compute in Hage. discriminate.
Defined.

(** X10: when the entry is stale and the helper comes back with an error
    (the go command failed, or its output did not decode), [List] returns
    that error as it is, makes no directory, writes and opens no file, and
    leaves the files as the go command left them. *)
Theorem List_go_error `{Platform} `{JSONDecoder listResult.t}
    (mpath escMod : string) (w : State) (dst : listResult.t) (e : error)
    (Hesc : module_EscapePath mpath = Ok escMod)
    (Hstale : isFresh w (listFile w escMod) = false)
    (Herr : fst (goJSON listResult.zero (listCommand mpath) w) = Val (dst, Some e)) :
  fst (List mpath w) = Val (Err e) /\
  mkdirs (trace (snd (List mpath w))) = mkdirs (trace w) /\
  writes (trace (snd (List mpath w))) = writes (trace w) /\
  opens (trace (snd (List mpath w))) = opens (trace w) /\
  fs (snd (List mpath w)) = snd (fst (exec_Run (listCommand mpath) (fs w) (now w))).
Proof.
  rewrite goJSON_value in Herr by discriminate. cbv zeta in Herr.
  rewrite List_unfold, Hesc. cbv zeta. rewrite Hstale.
  set (file := listFile w escMod).
  assert (Hstate :
    mkdirs (trace (afterRun (listCommand mpath) (emit (EvStat file) w))) = mkdirs (trace w) /\
    writes (trace (afterRun (listCommand mpath) (emit (EvStat file) w))) = writes (trace w) /\
    opens (trace (afterRun (listCommand mpath) (emit (EvStat file) w))) = opens (trace w) /\
    fs (afterRun (listCommand mpath) (emit (EvStat file) w)) =
      snd (fst (exec_Run (listCommand mpath) (fs w) (now w)))).
  { simpl. rewrite !mkdirs_app, !writes_app. simpl. rewrite !app_nil_r.
    split; [done|]. split; [done|]. split; [|done].
    induction (trace w) as [|ev t IH]; [reflexivity|].
    destruct ev; simpl; rewrite ?IH; reflexivity. }
  destruct (runErr _).
  - injection Herr as _ <-. done.
  - destruct (Unmarshal _ _) as [answer [e'|]]; [|discriminate].
    injection Herr as _ <-. done.
Qed.

Lemma List_go_error_witness :
  fst (@List (Sample.platform (Sample.failed "" "go: module lookup disabled") time.Second)
         Sample.listDecoder "example/module" Sample.fresh) =
  Val (Err ("go list -m -json -versions example/module@latest:" +:+ nl +:+
            "go: module lookup disabled")).
Proof.
  apply (@List_go_error
           (Sample.platform (Sample.failed "" "go: module lookup disabled") time.Second)
           Sample.listDecoder "example/module" "example/module" Sample.fresh
           listResult.zero).
  - reflexivity.
  - vm_compute. reflexivity.
  - reflexivity.
Defined.

(** X11: when [List] refreshes the entry and returns a file, the file is
    the cache file with the stored bytes of the versions the go command
    listed, and the entry on disk is a regular file with these bytes,
    stamped with the time at which the go command returned. *)
Theorem List_refreshed_entry `{Platform} `{JSONDecoder listResult.t}
    (mpath escMod : string) (w : State) (answer : listResult.t) (f : File)
    (Hesc : module_EscapePath mpath = Ok escMod)
    (Hstale : isFresh w (listFile w escMod) = false)
    (Hrun : runErr (listReply mpath w) = None)
    (Hdec : Unmarshal (stdout (listReply mpath w)) listResult.zero = (answer, None))
    (Hpath : listResult.Path answer = mpath)
    (Hok : fst (List mpath w) = Val (Ok f)) :
  f = RegularFile (listFile w escMod) (listData (listResult.Versions answer)) /\
  exists m,
    fs (snd (List mpath w)) !! listFile w escMod =
    Some {| isDir := false; data := listData (listResult.Versions answer);
            modTime := snd (exec_Run (listCommand mpath) (fs w) (now w));
            mode := m |}.
Proof.
  destruct (List_refresh mpath escMod w answer Hesc Hstale Hrun Hdec Hpath)
    as (werr & w4 & _ & _ & _ & Hentry & Hlist).
  rewrite Hlist in Hok |- *.
  destruct werr as [e|]; [discriminate|].
  destruct (Hentry eq_refl) as [m Hm].
  unfold os.Open in Hok |- *. cbn [fst snd] in Hok |- *.
  change (fs (emit (EvOpen (listFile w escMod)) w4)) with (fs w4).
  rewrite Hm in Hok |- *. cbn [isDir data] in Hok.
  injection Hok as <-. split; [reflexivity | by exists m].
Qed.

Lemma List_refreshed_entry_witness :
  exists m,
    fs (snd (@List (Sample.platform (Sample.succeeded "<example/module>") time.Second)
               Sample.listDecoder "example/module" Sample.fresh)) !! Sample.cacheFile =
    Some {| isDir := false; data := "v1.0.0" +:+ nl +:+ "v1.1.0" +:+ nl;
            modTime := time.Minute + time.Second; mode := m |}.
Proof.
  destruct (@List_refreshed_entry
              (Sample.platform (Sample.succeeded "<example/module>") time.Second)
              Sample.listDecoder "example/module" "example/module" Sample.fresh
              Sample.exampleList
              (RegularFile Sample.cacheFile ("v1.0.0" +:+ nl +:+ "v1.1.0" +:+ nl)))
    as [_ Hentry].
  - reflexivity.
  - vm_compute. reflexivity.
  - reflexivity.
  - vm_compute. reflexivity.
  - reflexivity.
  - vm_compute. reflexivity.
  - exact Hentry.
Defined.





(** ** The delegates, beyond [Latest] *)

Section DelegatesMore.
Context `{Platform} `{JSONDecoder downloadInfo.t}.

Lemma GoMod_unfold (m : module.Version.t) (w : State) :
  GoMod m w =
  match fst (download m w) with
  | Val (_, Some e) => (Val (Err e), afterRun (downloadCommand m) w)
  | Val (d, None) => os.Open (downloadInfo.GoMod d) (afterRun (downloadCommand m) w)
  | Panic msg => (Panic msg, afterRun (downloadCommand m) w)
  end.
Proof.
  unfold GoMod, mbind, M_bind. rewrite <- download_state.
  destruct (download m w) as [[[d [e|]]|msg] w']; reflexivity.
Qed.

Lemma Zip_unfold (m : module.Version.t) (w : State) :
  Zip m w =
  match fst (download m w) with
  | Val (_, Some e) => (Val (Err e), afterRun (downloadCommand m) w)
  | Val (d, None) => os.Open (downloadInfo.Zip d) (afterRun (downloadCommand m) w)
  | Panic msg => (Panic msg, afterRun (downloadCommand m) w)
  end.
Proof.
  unfold Zip, mbind, M_bind. rewrite <- download_state.
  destruct (download m w) as [[[d [e|]]|msg] w']; reflexivity.
Qed.

Lemma download_returns (m : module.Version.t) (w : State) :
  exists r, fst (download m w) = Val r.
Proof.
  unfold download. by apply goJSON_returns.
Qed.

Lemma opens_app (t1 t2 : list Event) : opens (t1 ++ t2) = opens t1 ++ opens t2.
Proof.
  induction t1 as [|e t1 IH]; [reflexivity|].
  destruct e; simpl; rewrite ?IH; reflexivity.
Qed.

End DelegatesMore.

(** X14: [Info], [GoMod] and [Zip] each run the go command once, with
    [go mod download -json] and the coordinate, whatever comes of it. *)
Theorem delegates_run_download_once `{Platform} `{JSONDecoder downloadInfo.t}
    (m : module.Version.t) (w : State) :
  runs (trace (snd (Info m w))) =
    runs (trace w) ++ [["go"; "mod"; "download"; "-json"; module.Version.String m]] /\
  runs (trace (snd (GoMod m w))) =
    runs (trace w) ++ [["go"; "mod"; "download"; "-json"; module.Version.String m]] /\
  runs (trace (snd (Zip m w))) =
    runs (trace w) ++ [["go"; "mod"; "download"; "-json"; module.Version.String m]].
Proof.
  rewrite Info_unfold, GoMod_unfold, Zip_unfold.
  fold (downloadCommand m).
  destruct (fst (download m w)) as [[d [e|]]|msg]; simpl;
    rewrite !runs_app; simpl; by rewrite ?app_nil_r.
Qed.

(** X15: when the download has answered with a record, [Info], [GoMod] and
    [Zip] open the file that the record names in the field of the same
    name, and nothing else; the three differ in that field alone. *)
Theorem delegates_open_their_field `{Platform} `{JSONDecoder downloadInfo.t}
    (m : module.Version.t) (w : State) (d : downloadInfo.t)
    (Hok : fst (download m w) = Val (d, None)) :
  Info m w = os.Open (downloadInfo.Info d) (afterRun (downloadCommand m) w) /\
  GoMod m w = os.Open (downloadInfo.GoMod d) (afterRun (downloadCommand m) w) /\
  Zip m w = os.Open (downloadInfo.Zip d) (afterRun (downloadCommand m) w) /\
  opens (trace (snd (Info m w))) = opens (trace w) ++ [downloadInfo.Info d] /\
  opens (trace (snd (GoMod m w))) = opens (trace w) ++ [downloadInfo.GoMod d] /\
  opens (trace (snd (Zip m w))) = opens (trace w) ++ [downloadInfo.Zip d].
Proof.
  rewrite Info_unfold, GoMod_unfold, Zip_unfold, Hok.
  repeat split; simpl; rewrite !opens_app; simpl; by rewrite ?app_nil_r.
Qed.

Lemma delegates_open_their_field_witness :
  fst (@GoMod (Sample.platform (Sample.succeeded "<example/module@v1.1.0>") time.Second)
         Sample.downloadDecoder
         {| module.Version.Path := "example/module"; module.Version.Version := "v1.1.0" |}
         Sample.fresh) =
  Val (Err ("open /go/pkg/mod/cache/download/example/module/@v/v1.1.0.mod" +:+
            ": no such file or directory")).
Proof.
  destruct (@delegates_open_their_field
              (Sample.platform (Sample.succeeded "<example/module@v1.1.0>") time.Second)
              Sample.downloadDecoder
              {| module.Version.Path := "example/module";
                 module.Version.Version := "v1.1.0" |}
              Sample.fresh Sample.exampleDownload eq_refl) as (_ & -> & _).
  reflexivity.
Defined.

(** X16: when the download comes back with an error, [Info], [GoMod] and
    [Zip] return that error as it is and open no file. *)
Theorem delegates_download_error `{Platform} `{JSONDecoder downloadInfo.t}
    (m : module.Version.t) (w : State) (d : downloadInfo.t) (e : error)
    (Herr : fst (download m w) = Val (d, Some e)) :
  Info m w = (Val (Err e), afterRun (downloadCommand m) w) /\
  GoMod m w = (Val (Err e), afterRun (downloadCommand m) w) /\
  Zip m w = (Val (Err e), afterRun (downloadCommand m) w) /\
  opens (trace (afterRun (downloadCommand m) w)) = opens (trace w).
Proof.
  rewrite Info_unfold, GoMod_unfold, Zip_unfold, Herr.
  repeat split. simpl. rewrite opens_app. simpl. by rewrite app_nil_r.
Qed.

Lemma delegates_download_error_witness :
  fst (@Zip (Sample.platform (Sample.failed "" "go: no such module") time.Second)
         Sample.downloadDecoder
         {| module.Version.Path := "example/module"; module.Version.Version := "v9.9.9" |}
         Sample.fresh) =
  Val (Err ("go mod download -json example/module@v9.9.9:" +:+ nl +:+
            "go: no such module")).
Proof.
  destruct (@delegates_download_error
              (Sample.platform (Sample.failed "" "go: no such module") time.Second)
              Sample.downloadDecoder
              {| module.Version.Path := "example/module";
                 module.Version.Version := "v9.9.9" |}
              Sample.fresh downloadInfo.new
              ("go mod download -json example/module@v9.9.9:" +:+ nl +:+
               "go: no such module") eq_refl) as (_ & _ & -> & _).
  reflexivity.
Defined.

(** X17: none of the five operations panics. *)
Theorem operations_never_panic `{Platform} `{JSONDecoder listResult.t}
    `{JSONDecoder downloadInfo.t} (mpath : string) (m : module.Version.t)
    (w : State) (msg : string) :
  fst (List mpath w) <> Panic msg /\
  fst (Latest mpath w) <> Panic msg /\
  fst (Info m w) <> Panic msg /\
  fst (GoMod m w) <> Panic msg /\
  fst (Zip m w) <> Panic msg.
Proof.
  assert (Hopen : forall name w', fst (os.Open name w') <> Panic msg) by done.
  split; [|split; [|split; [|split]]].
  - rewrite List_unfold.
    destruct (module_EscapePath mpath) as [escMod|e]; [|done].
    cbv zeta. destruct (isFresh _ _); [apply Hopen|].
    destruct (runErr _); [done|].
    destruct (Unmarshal _ _) as [answer [e|]]; [done|].
    destruct (negb _); [done|].
    cbv zeta.
    destruct (WriteFile_returns (listFile w escMod)
                (listData (listResult.Versions answer)) 438
                (snd (os.MkdirAll (path_Dir (listFile w escMod)) 755
                        (afterRun (listCommand mpath)
                           (emit (EvStat (listFile w escMod)) w)))))
      as (werr & w4 & -> & _).
    destruct werr; [done | apply Hopen].
  - change (Latest mpath w)
      with (Info {| module.Version.Path := mpath;
                    module.Version.Version := "latest" |} w).
    rewrite Info_unfold.
    destruct (download_returns
                {| module.Version.Path := mpath; module.Version.Version := "latest" |} w)
      as [[d [e|]] ->]; [done | apply Hopen].
  - rewrite Info_unfold.
    destruct (download_returns m w) as [[d [e|]] ->]; [done | apply Hopen].
  - rewrite GoMod_unfold.
    destruct (download_returns m w) as [[d [e|]] ->]; [done | apply Hopen].
  - rewrite Zip_unfold.
    destruct (download_returns m w) as [[d [e|]] ->]; [done | apply Hopen].
Qed.

(** ** The logger, beyond the status *)

Section LoggerMore.
Context {W : Type} `{http_ResponseWriter W}.

Lemma logger_ServeHTTP_unfold (l : logger) (w : W) (r : http.Request)
    (st st' : State) (calls : list http.Call) :
  h l r st = (Val calls, st') ->
  logger_ServeHTTP l w r st =
  (Val (fold_left http.call calls w),
   emit (EvLog (time.Sub (now st') (now st)) (statusAfter calls 200) (http.URL r)) st').
Proof.
  intros Hh.
  unfold logger_ServeHTTP, http.ServeHTTP, mbind, M_bind, mret, M_ret,
    time.Now, time.Since, log_Printf.
  rewrite Hh, responseLogger_calls. reflexivity.
Qed.

End LoggerMore.

(** X18: a handler that never writes a status, whatever body it writes, is
    logged with 200. *)
Theorem logger_logs_200_by_default {W : Type} `{http_ResponseWriter W}
    (l : logger) (w : W) (r : http.Request) (st st' : State) (calls : list http.Call)
    (Hcalls : h l r st = (Val calls, st'))
    (Hnone : Forall (fun c => writesHeader c = false) calls) :
  logged (trace (snd (logger_ServeHTTP l w r st))) = logged (trace st') ++ [200].
Proof.
  rewrite (logger_ServeHTTP_unfold _ _ _ _ _ _ Hcalls). simpl.
  rewrite logged_app. simpl. by rewrite statusAfter_no_header.
Qed.

Lemma logger_logs_200_by_default_witness :
  logged (trace (snd (logger_ServeHTTP Sample.bodyOnly Sample.noResponse
                        Sample.listRequest Sample.fresh))) = [200].
Proof.
  apply (logger_logs_200_by_default Sample.bodyOnly Sample.noResponse
           Sample.listRequest Sample.fresh Sample.fresh [http.CallWrite "v1.0.0"]).
  - reflexivity.
  - repeat constructor.
Defined.

(** X19: the logger passes the handler's calls on to the writer it wraps,
    all of them and in their order, and changes nothing in the world that
    the handler left but the trace, to which it adds one line: the time
    the handler took, the status and the URL of the request. *)
Theorem logger_is_transparent {W : Type} `{http_ResponseWriter W}
    (l : logger) (w : W) (r : http.Request) (st st' : State) (calls : list http.Call)
    (Hcalls : h l r st = (Val calls, st')) :
  fst (logger_ServeHTTP l w r st) = Val (fold_left http.call calls w) /\
  fs (snd (logger_ServeHTTP l w r st)) = fs st' /\
  now (snd (logger_ServeHTTP l w r st)) = now st' /\
  downloadRoot (snd (logger_ServeHTTP l w r st)) = downloadRoot st' /\
  trace (snd (logger_ServeHTTP l w r st)) =
    trace st' ++ [EvLog (time.Sub (now st') (now st)) (statusAfter calls 200) (http.URL r)].
Proof. rewrite (logger_ServeHTTP_unfold _ _ _ _ _ _ Hcalls). done. Qed.

Lemma logger_is_transparent_witness :
  fst (logger_ServeHTTP Sample.bodyOnly Sample.noResponse
         Sample.listRequest Sample.fresh) =
  Val {| http.status := Some 200; http.body := "v1.0.0" |}.
Proof.
  destruct (logger_is_transparent Sample.bodyOnly Sample.noResponse
              Sample.listRequest Sample.fresh Sample.fresh [http.CallWrite "v1.0.0"]
              eq_refl) as [Hwriter _].
  exact Hwriter.
Defined.

(** X20: when the handler panics, the logger logs nothing and the panic
    goes on to its caller. *)
Theorem logger_panic_logs_nothing {W : Type} `{http_ResponseWriter W}
    (l : logger) (w : W) (r : http.Request) (st st' : State) (msg : string)
    (Hpanic : h l r st = (Panic msg, st')) :
  logger_ServeHTTP l w r st = (Panic msg, st').
Proof.
  unfold logger_ServeHTTP, http.ServeHTTP, mbind, M_bind, time.Now.
  by rewrite Hpanic.
Qed.

Lemma logger_panic_logs_nothing_witness :
  logger_ServeHTTP Sample.panics Sample.noResponse Sample.listRequest Sample.fresh =
  (Panic "boom", Sample.fresh).
Proof.
  apply (logger_panic_logs_nothing Sample.panics Sample.noResponse
           Sample.listRequest Sample.fresh Sample.fresh "boom").
  reflexivity.
Defined.

(** ** Start-up *)

Lemma init_keeps_set (environ : gmap string string) (key : string) :
  default "" (environ !! key) <> "" -> init environ !! key = environ !! key.
Proof.
  unfold init, os_Getenv, os_Setenv. cbv zeta.
  intros Hset.
  destruct (String.eqb (default "" (environ !! "GIT_TERMINAL_PROMPT")) "") eqn:Hp;
    [apply String.eqb_eq in Hp|];
    match goal with
    | |- context [if ?c then _ else _] => destruct c eqn:Hs
    end; try reflexivity.
    + apply andb_true_iff in Hs as [_ Hc]. apply String.eqb_eq in Hc.
      rewrite lookup_insert_ne in Hc by done.
      destruct (decide (key = "GIT_SSH_COMMAND")) as [->|Hk1]; [by rewrite Hc in Hset|].
      rewrite lookup_insert_ne by done.
      destruct (decide (key = "GIT_TERMINAL_PROMPT")) as [->|Hk2]; [by rewrite Hp in Hset|].
      by rewrite lookup_insert_ne.
    + destruct (decide (key = "GIT_TERMINAL_PROMPT")) as [->|Hk2]; [by rewrite Hp in Hset|].
      by rewrite lookup_insert_ne.
    + apply andb_true_iff in Hs as [_ Hc]. apply String.eqb_eq in Hc.
      destruct (decide (key = "GIT_SSH_COMMAND")) as [->|Hk1]; [by rewrite Hc in Hset|].
      by rewrite lookup_insert_ne.
Qed.

(** X21: [init] leaves alone every variable that is set to a value that is
    not empty, and every variable other than [GIT_TERMINAL_PROMPT] and
    [GIT_SSH_COMMAND]. *)
Theorem init_keeps_settings (environ : gmap string string) (key : string) :
  (os_Getenv environ key <> "" -> init environ !! key = environ !! key) /\
  (key <> "GIT_TERMINAL_PROMPT" -> key <> "GIT_SSH_COMMAND" ->
   init environ !! key = environ !! key).
Proof.
  split; [apply init_keeps_set|].
  unfold init, os_Getenv, os_Setenv. cbv zeta.
  intros Hk1 Hk2.
  repeat match goal with
  | |- context [if ?c then _ else _] => destruct c
  end; rewrite ?lookup_insert_ne by done; reflexivity.
Qed.

Lemma init_keeps_settings_witness :
  init {[ "GIT_TERMINAL_PROMPT" := "1" ]} !! "GIT_TERMINAL_PROMPT" = Some "1".
Proof.
  rewrite (proj1 (init_keeps_settings {[ "GIT_TERMINAL_PROMPT" := "1" ]}
                    "GIT_TERMINAL_PROMPT")).
  - reflexivity.
  - vm_compute. discriminate.
Defined.

Lemma init_sets_defaults (environ : gmap string string) :
  (os_Getenv environ "GIT_TERMINAL_PROMPT" = "" ->
   os_Getenv (init environ) "GIT_TERMINAL_PROMPT" = "0") /\
  (os_Getenv environ "GIT_SSH" = "" -> os_Getenv environ "GIT_SSH_COMMAND" = "" ->
   os_Getenv (init environ) "GIT_SSH_COMMAND" = "ssh -o ControlMaster=no").
Proof.
  unfold init, os_Getenv, os_Setenv. cbv zeta.
  split.
  - intros Hp. rewrite Hp. cbn [String.eqb].
    rewrite !lookup_insert_ne by done.
    destruct (_ && _); [rewrite lookup_insert_ne by done|];
      by rewrite lookup_insert_eq.
  - intros Hs Hc.
    destruct (String.eqb (default "" (environ !! "GIT_TERMINAL_PROMPT")) "");
      rewrite ?lookup_insert_ne by done; rewrite Hs, Hc; cbn [String.eqb andb];
      by rewrite lookup_insert_eq.
Qed.

(** X22: after [init], [GIT_TERMINAL_PROMPT] is ["0"] if it was unset or
    empty; [GIT_SSH_COMMAND] is [ssh -o ControlMaster=no] if it and
    [GIT_SSH] were both unset or empty, and is what it was if [GIT_SSH] was
    set. *)
Theorem init_defaults (environ : gmap string string) :
  (os_Getenv environ "GIT_TERMINAL_PROMPT" = "" ->
   os_Getenv (init environ) "GIT_TERMINAL_PROMPT" = "0") /\
  (os_Getenv environ "GIT_SSH" = "" -> os_Getenv environ "GIT_SSH_COMMAND" = "" ->
   os_Getenv (init environ) "GIT_SSH_COMMAND" = "ssh -o ControlMaster=no") /\
  (os_Getenv environ "GIT_SSH" <> "" ->
   init environ !! "GIT_SSH_COMMAND" = environ !! "GIT_SSH_COMMAND").
Proof.
  split; [apply init_sets_defaults|]. split; [apply init_sets_defaults|].
  unfold init, os_Getenv, os_Setenv. cbv zeta.
  intros Hs.
  destruct (String.eqb (default "" (environ !! "GIT_TERMINAL_PROMPT")) "");
    rewrite ?lookup_insert_ne by done;
    (destruct (String.eqb (default "" (environ !! "GIT_SSH")) "") eqn:He;
     [by apply String.eqb_eq in He|]); cbn [andb];
    rewrite ?lookup_insert_ne by done; reflexivity.
Qed.

Lemma init_defaults_witness :
  os_Getenv (init {[ "HOME" := "/root" ]}) "GIT_TERMINAL_PROMPT" = "0" /\
  os_Getenv (init {[ "HOME" := "/root" ]}) "GIT_SSH_COMMAND" = "ssh -o ControlMaster=no".
Proof.
  destruct (init_defaults {[ "HOME" := "/root" ]}) as (Hp & Hc & _).
  split; [apply Hp | apply Hc]; reflexivity.
Defined.

(** X23: running [init] again changes nothing. *)
Theorem init_idempotent (environ : gmap string string) :
  init (init environ) = init environ.
Proof.
  assert (Hstable : forall env : gmap string string,
    os_Getenv env "GIT_TERMINAL_PROMPT" <> "" ->
    (os_Getenv env "GIT_SSH" <> "" \/ os_Getenv env "GIT_SSH_COMMAND" <> "") ->
    init env = env).
  { intros env Hp Hs. unfold init. cbv zeta.
    destruct (String.eqb (os_Getenv env "GIT_TERMINAL_PROMPT") "") eqn:He;
      [by apply String.eqb_eq in He|].
    destruct (String.eqb (os_Getenv env "GIT_SSH") "") eqn:H1;
      destruct (String.eqb (os_Getenv env "GIT_SSH_COMMAND") "") eqn:H2;
      try reflexivity.
    apply String.eqb_eq in H1, H2. by destruct Hs. }
  apply Hstable.
  - destruct (String.eqb (os_Getenv environ "GIT_TERMINAL_PROMPT") "") eqn:He.
    + apply String.eqb_eq in He.
      rewrite (proj1 (init_sets_defaults environ) He). discriminate.
    + apply String.eqb_neq in He. unfold os_Getenv in *.
      by rewrite (init_keeps_set environ "GIT_TERMINAL_PROMPT" He).
  - destruct (String.eqb (os_Getenv environ "GIT_SSH") "") eqn:H1.
    + destruct (String.eqb (os_Getenv environ "GIT_SSH_COMMAND") "") eqn:H2.
      * apply String.eqb_eq in H1, H2. right.
        rewrite (proj2 (init_sets_defaults environ) H1 H2). discriminate.
      * apply String.eqb_neq in H2. right. unfold os_Getenv in *.
        by rewrite (init_keeps_set environ "GIT_SSH_COMMAND" H2).
    + apply String.eqb_neq in H1. left. unfold os_Getenv in *.
      by rewrite (init_keeps_set environ "GIT_SSH" H1).
Qed.

Section MainFacts.
Context `{Platform} {R : Type} `{RegexpEngine R} `{JSONDecoder goEnv}.
Variable SplitList : string -> list string.

Lemma loadRules_value (file : string) (w : State) :
  loadRules file w = (Val (loadedRules file (fs w)), afterLoad file w).
Proof.
  unfold loadedRules, afterLoad. destruct (String.eqb file "") eqn:He.
  - unfold loadRules. by rewrite He.
  - apply loadRules_unfold. by apply String.eqb_neq.
Qed.

Lemma afterLoad_fs (file : string) (w : State) : fs (afterLoad file w) = fs w.
Proof. unfold afterLoad. by destruct (String.eqb file ""). Qed.

Lemma afterLoad_root (file : string) (w : State) :
  downloadRoot (afterLoad file w) = downloadRoot w.
Proof. unfold afterLoad. by destruct (String.eqb file ""). Qed.

Lemma reads_app (t1 t2 : list Event) : reads (t1 ++ t2) = reads t1 ++ reads t2.
Proof.
  induction t1 as [|e t1 IH]; [reflexivity|].
  destruct e; simpl; rewrite ?IH; reflexivity.
Qed.

Lemma afterLoad_reads (file : string) (w : State) :
  reads (trace (afterLoad file w)) =
  reads (trace w) ++ (if String.eqb file "" then [] else [file]).
Proof.
  unfold afterLoad. destruct (String.eqb file "").
  - by rewrite app_nil_r.
  - simpl. by rewrite reads_app.
Qed.

(** [main], one decision after the other. *)
Lemma main_unfold (f : flags) (environ : gmap string string) (w : State) :
  main SplitList f environ w =
  let w1 := afterRun goEnvCommand (mainStart f w) in
  match fst (goJSON {| GOPATH := "" |} goEnvCommand w) with
  | Panic msg => (Panic msg, w1)
  | Val (_, Some err) => (Val (mainEnviron f environ, [], Fatal err), w1)
  | Val (env, None) =>
      match SplitList (GOPATH env) with
      | [] => (Val (mainEnviron f environ, [], Fatal "missing $GOPATH"), w1)
      | first :: _ =>
          if String.eqb first "" then
            (Val (mainEnviron f environ, [], Fatal "missing $GOPATH"), w1)
          else
            let w2 := withRoot (filepath_Join first "pkg/mod/cache/download") w1 in
            let w3 := afterLoad (whitelistFile f) w2 in
            match loadedRules (whitelistFile f) (filesAtStart w) with
            | Err e =>
                (Val (mainEnviron f environ, [],
                      Fatal ("could not load whitelist: " +:+ e)), w3)
            | Ok whiteRules =>
                match loadedRules (blacklistFile f) (filesAtStart w) with
                | Err e =>
                    (Val (mainEnviron f environ, [],
                          Fatal ("could not load blacklist: " +:+ e)),
                     afterLoad (blacklistFile f) w3)
                | Ok blackRules =>
                    (Val (mainEnviron f environ,
                          if negb (String.eqb (proxyHost f) "") then
                            ["ProxyHost " +:+ proxyHost f +:+ nl] ++
                            (if negb (String.eqb (excludeHost f) "")
                             then ["ExcludeHost " +:+ excludeHost f +:+ nl] else [])
                          else [],
                          ListenAndServe (listen f)
                            (if negb (String.eqb (proxyHost f) "") then
                               NewRouter {| whiteList := whiteRules;
                                            blackList := blackRules |}
                                 (excludeHost f) (proxyHost f)
                             else
                               NewServer {| whiteList := whiteRules;
                                            blackList := blackRules |})),
                     afterLoad (blacklistFile f) w3)
                end
            end
      end
  end.
Proof.
  assert (Hstart : (fs (mainStart f w), now (mainStart f w)) = (fs w, now w)).
  { unfold mainStart. by destruct (negb _). }
  injection Hstart as Hfs Hnow.
  assert (Hval : fst (goJSON {| GOPATH := "" |} goEnvCommand (mainStart f w)) =
                 fst (goJSON {| GOPATH := "" |} goEnvCommand w)).
  { rewrite !goJSON_value by discriminate. by rewrite Hfs, Hnow. }
  assert (Hfiles : fs (afterRun goEnvCommand (mainStart f w)) = filesAtStart w).
  { unfold filesAtStart. rewrite afterRun_fs. by rewrite Hfs, Hnow. }
  pose proof (goJSON_state {| GOPATH := "" |} goEnvCommand (mainStart f w)) as Hstate.
  rewrite <- Hval. cbv zeta.
  unfold main, mbind at 1 2, M_bind at 1 2.
  assert (Hfirst :
    (if negb (String.eqb (cacheDir f) "")
     then _ ← setDownloadRoot (filepath_Join (cacheDir f) "pkg/mod/cache/download");
          mret (os_Setenv "GOPATH" (cacheDir f) environ)
     else mret environ) w = (Val (mainEnviron f environ), mainStart f w)).
  { unfold mainEnviron, mainStart. by destruct (negb _). }
  rewrite Hfirst. fold goEnvCommand.
  destruct (goJSON {| GOPATH := "" |} goEnvCommand (mainStart f w))
    as [[[env [err|]]|msg] w1] eqn:Hgo;
    cbn [fst snd] in Hstate |- *; rewrite <- Hstate by discriminate;
    [reflexivity | | reflexivity].
  destruct (SplitList (GOPATH env)) as [|first rest]; [reflexivity|].
  destruct (String.eqb first ""); [reflexivity|].
  unfold mbind, M_bind, setDownloadRoot.
  fold (withRoot (filepath_Join first "pkg/mod/cache/download") w1).
  rewrite !loadRules_value.
  assert (Hw1 : fs w1 = filesAtStart w) by (rewrite Hstate by discriminate; exact Hfiles).
  cbn [fs withRoot]. rewrite Hw1.
  destruct (loadedRules (whitelistFile f) (filesAtStart w)) as [whiteRules|e];
    [|reflexivity].
  rewrite loadRules_value, afterLoad_fs. cbn [fs withRoot]. rewrite Hw1.
  destruct (loadedRules (blacklistFile f) (filesAtStart w)) as [blackRules|e];
    [|reflexivity].
  destruct (negb (String.eqb (proxyHost f) "")); reflexivity.
Qed.

End MainFacts.

(** X24: when [main] gets to serve, it serves at the address of the
    [listen] flag; the go command has reported a GOPATH whose first entry
    is not empty, and the download root is [pkg/mod/cache/download] under
    that entry, whatever the [cacheDir] flag said; the operations carry
    the rules of the two rule files; and the handler is the router exactly
    when the [proxy] flag is given. *)
Theorem main_serving `{Platform} {R : Type} `{RegexpEngine R} `{JSONDecoder goEnv}
    (SplitList : string -> list string) (f : flags) (environ environ' : gmap string string)
    (w w' : State) (lines : list string) (addr : string) (handle : handler R)
    (Hmain : main SplitList f environ w =
             (Val (environ', lines, ListenAndServe addr handle), w')) :
  addr = listen f /\
  environ' = mainEnviron f environ /\
  (exists env first rest,
     fst (goJSON {| GOPATH := "" |} goEnvCommand w) = Val (env, None) /\
     SplitList (GOPATH env) = first :: rest /\ first <> "" /\
     downloadRoot w' = filepath_Join first "pkg/mod/cache/download") /\
  loadedRules (whitelistFile f) (filesAtStart w) = Ok (whiteList (handlerOps handle)) /\
  loadedRules (blacklistFile f) (filesAtStart w) = Ok (blackList (handlerOps handle)) /\
  handle = (if String.eqb (proxyHost f) "" then NewServer (handlerOps handle)
            else NewRouter (handlerOps handle) (excludeHost f) (proxyHost f)).
Proof.
  rewrite main_unfold in Hmain. cbv zeta in Hmain.
  destruct (fst (goJSON {| GOPATH := "" |} goEnvCommand w))
    as [[env [err|]]|msg]; [discriminate | | discriminate].
  destruct (SplitList (GOPATH env)) as [|first rest] eqn:Hlist; [discriminate|].
  destruct (String.eqb first "") eqn:Hfirst; [discriminate|].
  destruct (loadedRules (whitelistFile f) (filesAtStart w)) as [whiteRules|e];
    [|discriminate].
  destruct (loadedRules (blacklistFile f) (filesAtStart w)) as [blackRules|e];
    [|discriminate].
  injection Hmain as <- _ <- <- <-.
  split; [reflexivity|]. split; [reflexivity|]. split.
  { exists env, first, rest.
    split; [reflexivity|]. split; [exact Hlist|].
    split; [by apply String.eqb_neq|].
    by rewrite !afterLoad_root. }
  destruct (String.eqb (proxyHost f) ""); done.
Qed.

Lemma main_serving_witness :
  downloadRoot
    (snd (@main (Sample.platform (Sample.succeeded "<gopath /home/go>") time.Second)
            regexp.Regexp _ Sample.gopathDecoder Sample.SplitList
            {| listen := "0.0.0.0:8081"; cacheDir := "/var/cache/goproxy";
               proxyHost := ""; excludeHost := "";
               whitelistFile := "allow"; blacklistFile := "deny" |}
            ∅ (Sample.withRuleFiles "example/.*" "example/internal/.*"))) =
  "/home/go/pkg/mod/cache/download".
Proof.
  destruct (@main_serving
              (Sample.platform (Sample.succeeded "<gopath /home/go>") time.Second)
              regexp.Regexp _ Sample.gopathDecoder Sample.SplitList
              {| listen := "0.0.0.0:8081"; cacheDir := "/var/cache/goproxy";
                 proxyHost := ""; excludeHost := "";
                 whitelistFile := "allow"; blacklistFile := "deny" |}
              ∅ {[ "GOPATH" := "/var/cache/goproxy" ]}
              (Sample.withRuleFiles "example/.*" "example/internal/.*")
              (snd (@main (Sample.platform (Sample.succeeded "<gopath /home/go>")
                             time.Second)
                      regexp.Regexp _ Sample.gopathDecoder Sample.SplitList
                      {| listen := "0.0.0.0:8081"; cacheDir := "/var/cache/goproxy";
                         proxyHost := ""; excludeHost := "";
                         whitelistFile := "allow"; blacklistFile := "deny" |}
                      ∅ (Sample.withRuleFiles "example/.*" "example/internal/.*")))
              [] "0.0.0.0:8081"
              (NewServer {| whiteList := [Sample.rule "example/.*"];
                            blackList := [Sample.rule "example/internal/.*"] |}))
    as (_ & _ & (env & first & rest & Hgo & Hlist & _ & Hroot) & _).
  - vm_compute. reflexivity.
  - vm_compute in Hgo. injection Hgo as <-.
    vm_compute in Hlist. injection Hlist as <- _.
    exact Hroot.
Defined.

(** X25: when the go command fails, or its answer does not decode, [main]
    ends in [log.Fatal] with the helper's error; when the GOPATH it
    reports has no first entry, or an empty one, [main] ends with
    [missing $GOPATH]; in both cases no rule file has been read. *)
Theorem main_needs_gopath `{Platform} {R : Type} `{RegexpEngine R} `{JSONDecoder goEnv}
    (SplitList : string -> list string) (f : flags) (environ : gmap string string)
    (w : State) (env : goEnv) :
  (forall err,
     fst (goJSON {| GOPATH := "" |} goEnvCommand w) = Val (env, Some err) ->
     fst (main (R := R) SplitList f environ w) =
       Val (mainEnviron f environ, [], Fatal err) /\
     reads (trace (snd (main (R := R) SplitList f environ w))) = reads (trace w)) /\
  (fst (goJSON {| GOPATH := "" |} goEnvCommand w) = Val (env, None) ->
   SplitList (GOPATH env) = [] \/ (exists rest, SplitList (GOPATH env) = "" :: rest) ->
   fst (main (R := R) SplitList f environ w) =
     Val (mainEnviron f environ, [], Fatal "missing $GOPATH") /\
   reads (trace (snd (main (R := R) SplitList f environ w))) = reads (trace w)).
Proof.
  assert (Hreads : reads (trace (afterRun goEnvCommand (mainStart f w))) = reads (trace w)).
  { simpl. rewrite reads_app. simpl. rewrite app_nil_r.
    unfold mainStart. by destruct (negb _). }
  split.
  - intros err Hgo. rewrite main_unfold. cbv zeta. rewrite Hgo. done.
  - intros Hgo Hlist. rewrite main_unfold. cbv zeta. rewrite Hgo.
    destruct Hlist as [-> | [rest ->]]; done.
Qed.

Lemma main_needs_gopath_witness :
  fst (@main (Sample.platform (Sample.succeeded "<gopath>") time.Second)
         regexp.Regexp _ Sample.gopathDecoder Sample.SplitList
         Sample.defaults ∅ Sample.fresh) =
  Val (∅, [], Fatal "missing $GOPATH").
Proof.
  destruct (@main_needs_gopath
              (Sample.platform (Sample.succeeded "<gopath>") time.Second)
              regexp.Regexp _ Sample.gopathDecoder Sample.SplitList
              Sample.defaults ∅ Sample.fresh {| GOPATH := "" |}) as [_ Hmissing].
  destruct Hmissing as [Hfatal _]; [reflexivity | by left | exact Hfatal].
Defined.

(** X26: when the allow file does not load, [main] ends in [log.Fatal]
    with [could not load whitelist: ] and the error, and the deny file has
    not been read. *)
Theorem main_bad_whitelist `{Platform} {R : Type} `{RegexpEngine R} `{JSONDecoder goEnv}
    (SplitList : string -> list string) (f : flags) (environ : gmap string string)
    (w : State) (env : goEnv) (first : string) (rest : list string) (e : error)
    (Hgo : fst (goJSON {| GOPATH := "" |} goEnvCommand w) = Val (env, None))
    (Hlist : SplitList (GOPATH env) = first :: rest)
    (Hfirst : first <> "")
    (Hallow : loadedRules (R := R) (whitelistFile f) (filesAtStart w) = Err e) :
  fst (main (R := R) SplitList f environ w) =
    Val (mainEnviron f environ, [], Fatal ("could not load whitelist: " +:+ e)) /\
  reads (trace (snd (main (R := R) SplitList f environ w))) =
    reads (trace w) ++ [whitelistFile f].
Proof.
  rewrite main_unfold. cbv zeta. rewrite Hgo, Hlist.
  destruct (String.eqb first "") eqn:He; [by apply String.eqb_eq in He|].
  rewrite Hallow. split; [reflexivity|].
  cbn [snd]. rewrite afterLoad_reads.
  assert (Hname : String.eqb (whitelistFile f) "" = false).
  { destruct (String.eqb (whitelistFile f) "") eqn:Hn; [|done].
    unfold loadedRules in Hallow. by rewrite Hn in Hallow. }
  rewrite Hname. simpl. rewrite reads_app. simpl. rewrite app_nil_r.
  unfold mainStart. by destruct (negb _).
Qed.

Lemma main_bad_whitelist_witness :
  fst (@main (Sample.platform (Sample.succeeded "<gopath /home/go>") time.Second)
         regexp.Regexp _ Sample.gopathDecoder Sample.SplitList
         {| listen := "0.0.0.0:8081"; cacheDir := ""; proxyHost := ""; excludeHost := "";
            whitelistFile := "allow"; blacklistFile := "deny" |}
         ∅ Sample.fresh) =
  Val (∅, [], Fatal "could not load whitelist: open allow: no such file or directory").
Proof.
  apply (@main_bad_whitelist
           (Sample.platform (Sample.succeeded "<gopath /home/go>") time.Second)
           regexp.Regexp _ Sample.gopathDecoder Sample.SplitList
           {| listen := "0.0.0.0:8081"; cacheDir := ""; proxyHost := ""; excludeHost := "";
              whitelistFile := "allow"; blacklistFile := "deny" |}
           ∅ Sample.fresh {| GOPATH := "/home/go:/usr/share/go" |}
           "/home/go" ["/usr/share/go"]).
  - reflexivity.
  - reflexivity.
  - discriminate.
  - reflexivity.
Defined.

(** X27: started without rule files, [main] reads no file and, when it
    gets to serve, serves operations whose [Filter] accepts every path. *)
Theorem main_without_rules `{Platform} {R : Type} `{RegexpEngine R} `{JSONDecoder goEnv}
    (SplitList : string -> list string) (f : flags) (environ environ' : gmap string string)
    (w w' : State) (lines : list string) (addr : string) (handle : handler R)
    (Hallow : whitelistFile f = "")
    (Hdeny : blacklistFile f = "")
    (Hmain : main SplitList f environ w =
             (Val (environ', lines, ListenAndServe addr handle), w')) :
  (forall path, Filter (handlerOps handle) path = true) /\
  reads (trace w') = reads (trace w).
Proof.
  rewrite main_unfold in Hmain. cbv zeta in Hmain.
  rewrite Hallow, Hdeny in Hmain.
  destruct (fst (goJSON {| GOPATH := "" |} goEnvCommand w))
    as [[env [err|]]|msg]; [discriminate | | discriminate].
  destruct (SplitList (GOPATH env)) as [|first rest]; [discriminate|].
  destruct (String.eqb first ""); [discriminate|].
  change (loadedRules (R := R) "" (filesAtStart w)) with (@Ok (list R) []) in Hmain.
  cbv iota in Hmain. injection Hmain as _ _ _ <- <-.
  split.
  - intros path. apply Filter_no_allow. by destruct (negb _).
  - rewrite !afterLoad_reads. cbn [String.eqb]. rewrite !app_nil_r.
    cbn [trace withRoot afterRun]. rewrite reads_app. simpl. rewrite app_nil_r.
    unfold mainStart. by destruct (negb _).
Qed.

Lemma main_without_rules_witness :
  Filter (R := regexp.Regexp)
    (handlerOps (NewServer {| whiteList := []; blackList := [] |})) "example/module" = true.
Proof.
  destruct (@main_without_rules
              (Sample.platform (Sample.succeeded "<gopath /home/go>") time.Second)
              regexp.Regexp _ Sample.gopathDecoder Sample.SplitList
              Sample.defaults ∅ ∅ Sample.fresh
              (snd (@main (Sample.platform (Sample.succeeded "<gopath /home/go>")
                             time.Second)
                      regexp.Regexp _ Sample.gopathDecoder Sample.SplitList
                      Sample.defaults ∅ Sample.fresh))
              [] "0.0.0.0:8081" (NewServer {| whiteList := []; blackList := [] |}))
    as [Haccept _].
  - reflexivity.
  - reflexivity.
  - vm_compute. reflexivity.
  - apply Haccept.
Defined.
